(** * parllama: the theme manager (src/parllama/theme_manager.py)

    A shallow embedding of [ThemeManager] and of the collaborators it talks
    to (the settings store, the secure file accessor, the file system, the
    Textual application), followed by the properties of the loading,
    fallback and facade operations. *)

From Stdlib Require Import String Ascii List Bool Arith Lia.
From stdpp Require Import base option list gmap strings.

Open Scope string_scope.
Open Scope list_scope.

(** ** Python strings and POSIX paths *)

Module Py.

(** [c in s] for a one-character [c]. *)
Fixpoint has_char (c : ascii) (s : string) : bool :=
  match s with
  | EmptyString => false
  | String a r => Ascii.eqb a c || has_char c r
  end.

Definition lower_ascii (a : ascii) : ascii :=
  let n := nat_of_ascii a in
  if ((65 <=? n)%nat && (n <=? 90)%nat)%bool then ascii_of_nat (n + 32) else a.

(** [s.lower()], on ASCII text. *)
Fixpoint lower (s : string) : string :=
  match s with
  | EmptyString => EmptyString
  | String a r => String (lower_ascii a) (lower r)
  end.

(** [s.endswith(suffix)]. *)
Definition endswith (s suffix : string) : bool :=
  let n := String.length s in
  let m := String.length suffix in
  (m <=? n)%nat && String.eqb (String.substring (n - m) m s) suffix.

(** [s.split("/")]: never empty, and no piece contains a slash. *)
Fixpoint split_slash (s : string) : list string :=
  match s with
  | EmptyString => [EmptyString]
  | String a r =>
      if Ascii.eqb a "/" then EmptyString :: split_slash r
      else match split_slash r with
           | [] => [String a EmptyString]
           | h :: t => String a h :: t
           end
  end.

(** [os.path.basename(p)]: what follows the last slash. *)
Definition basename (p : string) : string :=
  List.last (split_slash p) EmptyString.

(** The text of [g] before its last dot, all of [g] when it has none. *)
Fixpoint cut_ext (g : string) : string :=
  match g with
  | EmptyString => EmptyString
  | String a r =>
      if has_char "." r then String a (cut_ext r)
      else if Ascii.eqb a "." then EmptyString
      else g
  end.

(** [os.path.splitext(f)[0]] for a file name [f] without a slash: leading
    dots never start an extension. *)
Fixpoint splitext_name (f : string) : string :=
  match f with
  | String a r =>
      if Ascii.eqb a "." then String a (splitext_name r) else cut_ext f
  | EmptyString => EmptyString
  end.

(** [os.path.splitext(p)[0]]. *)
Fixpoint splitext_root (p : string) : string :=
  match p with
  | EmptyString => EmptyString
  | String a r =>
      if has_char "/" r then String a (splitext_root r)
      else if Ascii.eqb a "/" then String a (splitext_name r)
      else splitext_name p
  end.

(** A [pathlib.Path], by its parts; an absolute path starts with the part
    ["/"]. *)
Definition Path : Type := list string.

Definition is_part (c : string) : bool :=
  negb (String.eqb c "") && negb (String.eqb c ".").

(** The parts pathlib keeps of a segment: empty pieces and ["."] go,
    [".."] stays. *)
Definition parts_of (s : string) : list string :=
  List.filter is_part (split_slash s).

Definition is_absolute (s : string) : bool :=
  match s with
  | String a _ => Ascii.eqb a "/"
  | EmptyString => false
  end.

(** [p / s]: an absolute segment replaces [p]. *)
Definition joinpath (p : Path) (s : string) : Path :=
  if is_absolute s then "/" :: parts_of s else p ++ parts_of s.

Fixpoint join_slash (l : list string) : string :=
  match l with
  | [] => EmptyString
  | [c] => c
  | c :: r => c +:+ "/" +:+ join_slash r
  end.

(** [str(p)]. *)
Definition path_str (p : Path) : string :=
  match p with
  | [] => "."
  | "/" :: r => "/" +:+ join_slash r
  | _ => join_slash p
  end.

(** [p.parent] and [p.name]. *)
Definition parent (p : Path) : Path := List.removelast p.
Definition name (p : Path) : string := List.last p EmptyString.

End Py.

Declare Scope path_scope.
Delimit Scope path_scope with path.
Infix "/" := Py.joinpath : path_scope.
Abbreviation Path := Py.Path.

(** ** Data model *)

(** The two modes, in the order [load_theme] visits them. *)
Definition ThemeModes : list string := ["dark"; "light"].

(** The attributes of one mode: attribute name to value, opaque here. *)
Abbreviation Attrs := (gmap string string).

(** A theme definition as [read_json_file] returns it: a mapping keyed by
    mode name (other keys may be present and are ignored). *)
Abbreviation ThemeDef := (gmap string (gmap string string)).

(** [textual.theme.Theme(name=..., **attrs)]. *)
Record Theme : Type := mkTheme {
  theme_name : string;
  theme_attrs : Attrs
}.

Inductive AccessErrorKind : Type := AccessDenied | NotFound | ParseError.

(** The exceptions that travel through this module. *)
Inductive exn : Type :=
| Exception (msg : string)
| InvalidThemeError (theme : string)
| ThemeModeError (theme : string)
| SecureFileOpsError (kind : AccessErrorKind) (msg : string)
| OSError (msg : string)
| KeyError (key : string)
| AttributeError (msg : string)
| TypeError (msg : string).

(** [str(e)]. [ThemeModeError.__init__] hands its whole sentence to
    [InvalidThemeError.__init__], which prefixes it once more. *)
Definition exn_str (e : exn) : string :=
  match e with
  | Exception msg => msg
  | InvalidThemeError t => "Invalid theme: " +:+ t
  | ThemeModeError t =>
      "Invalid theme: Theme '" +:+ t
      +:+ "' does not have at least one of 'dark' or 'light' modes."
  | SecureFileOpsError _ msg => msg
  | OSError msg => msg
  | KeyError k => "'" +:+ k +:+ "'"
  | AttributeError msg => msg
  | TypeError msg => msg
  end.

(** [isinstance(e, (SecureFileOpsError, OSError))]. *)
Definition is_secure_or_os_error (e : exn) : bool :=
  match e with
  | SecureFileOpsError _ _ | OSError _ => true
  | _ => false
  end.

(** [isinstance(e, Exception)]: every exception above derives from it. *)
Definition is_exception (e : exn) : bool := true.

(** How a call ends: it returns, it raises, or the recursion budget of the
    model ran out before it could do either. *)
Inductive Outcome (A : Type) : Type :=
| Returned (a : A)
| Raised (e : exn)
| OutOfFuel.
Arguments Returned {A} a.
Arguments Raised {A} e.
Arguments OutOfFuel {A}.

(** What a fallible pure call gives back. *)
Definition Result (A : Type) : Type := exn + A.

(** *** The file system *)

(** What a regular file holds, as far as this module can tell: its size and
    what a JSON parser makes of its text. *)
Record FileContent : Type := mkFile {
  file_size_mb : nat;
  file_json : option ThemeDef
}.

(** A directory keeps the names of its entries in the order [os.listdir]
    reports them. *)
Inductive Node : Type :=
| Dir (entries : list string)
| File (content : FileContent).

Abbreviation FileSystem := (gmap (list string) Node).

(** *** The host application *)

(** The Textual [App] as this module uses it: [available_themes] is a dict
    (insertion-ordered, assignment replaces in place) and [theme] the active
    theme's name. *)
Record App : Type := mkApp {
  available_themes : list (string * Theme);
  theme : string
}.

(** [d[k] = v] on an insertion-ordered dict. *)
Fixpoint dict_set {V : Type} (k : string) (v : V) (d : list (string * V))
  : list (string * V) :=
  match d with
  | [] => [(k, v)]
  | (k', v') :: r =>
      if String.eqb k' k then (k, v) :: r else (k', v') :: dict_set k v r
  end.

(** [d[k]], [None] standing for a missing key. *)
Fixpoint dict_get {V : Type} (k : string) (d : list (string * V)) : option V :=
  match d with
  | [] => None
  | (k', v) :: r => if String.eqb k' k then Some v else dict_get k r
  end.

(** [list(d.keys())]. *)
Definition dict_keys {V : Type} (d : list (string * V)) : list string :=
  map fst d.

(** *** Collaborators outside this module *)

(** [parllama.settings_manager.settings], the fields read here. *)
Record Settings : Type := mkSettings {
  data_dir : Path;
  theme_fallback_name : string;
  max_json_size_mb : nat;
  allowed_json_extensions : list string;
  validate_file_content : bool;
  sanitize_filenames : bool
}.

(** [SecureFileOperations(...)] as built in [ThemeManager.__init__]. *)
Record SecureFileOperations : Type := mkSecureOps {
  max_file_size_mb : nat;
  allowed_extensions : list string;
  validate_content : bool;
  sanitize : bool
}.

(** Everything the module takes from its surroundings: the settings store,
    the directory of the installed package ([os.path.dirname(__file__)]),
    the secure file accessor's [read_json_file], which only reads, and the
    verdict of the runtime's [Theme] constructor on a set of keyword
    arguments: the exception it raises for them, if any. *)
Class Env : Type := mkEnv {
  settings : Settings;
  module_dir : Path;
  read_json_file : SecureFileOperations -> FileSystem -> Path -> Result ThemeDef;
  theme_kwargs_error : Attrs -> option exn
}.

(** *** Observable effects and program state *)

Inductive Event : Type :=
| ReadJson (file : Path)
| RegisterTheme (t : Theme)
| LogIt (msg : string) (notify : bool) (severity : string).

(** [self.app], the disk, and the effects so far, oldest first. *)
Record State : Type := mkState {
  app : option App;
  fs : FileSystem;
  events : list Event
}.

Definition emit (e : Event) (st : State) : State :=
  mkState (app st) (fs st) (events st ++ [e]).

Definition with_app (a : option App) (st : State) : State :=
  mkState a (fs st) (events st).

Definition with_fs (f : FileSystem) (st : State) : State :=
  mkState (app st) f (events st).

(** ** A state and exception monad

    A computation ends with an [Outcome] and leaves a state in every
    case: what a call did before it raised stays done. *)

Definition M (A : Type) : Type := State -> Outcome A * State.

Definition ret {A : Type} (a : A) : M A := fun st => (Returned a, st).

Definition raise {A : Type} (e : exn) : M A := fun st => (Raised e, st).

Definition of_result {A : Type} (r : Result A) : M A :=
  match r with
  | inl e => raise e
  | inr a => ret a
  end.

Definition bind {A B : Type} (m : M A) (k : A -> M B) : M B :=
  fun st =>
    match m st with
    | (Returned a, st') => k a st'
    | (Raised e, st') => (Raised e, st')
    | (OutOfFuel, st') => (OutOfFuel, st')
    end.

Definition gets {A : Type} (f : State -> A) : M A :=
  fun st => (Returned (f st), st).

Definition modify (f : State -> State) : M unit :=
  fun st => (Returned tt, f st).

(** [try: body / except <classes> as e: handler e]. *)
Definition try_except {A : Type} (body : M A) (classes : exn -> bool)
  (handler : exn -> M A) : M A :=
  fun st =>
    match body st with
    | (Raised e, st') =>
        if classes e then handler e st' else (Raised e, st')
    | r => r
    end.

Declare Scope py_scope.
Delimit Scope py_scope with py.
Notation "x <- m ;; k" := (bind m (fun x => k))
  (at level 100, m at next level, right associativity) : py_scope.
Notation "m ;;; k" := (bind m (fun _ => k))
  (at level 100, right associativity) : py_scope.
Open Scope py_scope.

(** [for x in l: body x]. *)
Fixpoint for_each {A : Type} (l : list A) (body : A -> M unit) : M unit :=
  match l with
  | [] => ret tt
  | x :: r => body x ;;; for_each r body
  end.

(** A name made of dots only (the empty name included). *)
Fixpoint only_dots (s : string) : bool :=
  match s with
  | EmptyString => true
  | String a r => Ascii.eqb a "." && only_dots r
  end.

(** ** File system operations *)

Definition path_exists (p : Path) (f : FileSystem) : bool :=
  match f !! p with
  | Some _ => true
  | None => false
  end.

(** Lists [name] in directory [dir], when that is a directory. *)
Definition add_entry (dir : Path) (name : string) (f : FileSystem) : FileSystem :=
  match f !! dir with
  | Some (Dir es) =>
      if bool_decide (name ∈ es) then f else <[dir := Dir (es ++ [name])]> f
  | _ => f
  end.

(** [os.mkdir(p)], an existing directory being accepted. *)
Definition mkdir_exist_ok (p : Path) : M unit :=
  fun st =>
    match fs st !! p with
    | Some (Dir _) => (Returned tt, st)
    | Some (File _) => (Raised (OSError "File exists"), st)
    | None =>
        (Returned tt,
         with_fs (<[p := Dir []]> (add_entry (Py.parent p) (Py.name p) (fs st))) st)
    end.

(** The path and its ancestors, outermost first. *)
Definition prefixes (p : Path) : list Path :=
  map (fun n => take n p) (seq 1 (length p)).

(** [p.mkdir(parents=True, exist_ok=True)]. *)
Definition mkdir_parents (p : Path) : M unit :=
  for_each (prefixes p) mkdir_exist_ok.

Definition write_file (dst : Path) (c : FileContent) : M unit :=
  fun st =>
    match fs st !! Py.parent dst with
    | Some (Dir _) =>
        (Returned tt,
         with_fs (<[dst := File c]> (add_entry (Py.parent dst) (Py.name dst) (fs st))) st)
    | _ => (Raised (OSError "No such file or directory"), st)
    end.

(** [shutil.copy(src, dst)]. *)
Definition shutil_copy (src dst : Path) : M unit :=
  fun st =>
    match fs st !! src with
    | Some (File c) =>
        match fs st !! dst with
        | Some (Dir _) => write_file (dst ++ [Py.name src]) c st
        | _ => write_file dst c st
        end
    | Some (Dir _) => (Raised (OSError "Is a directory"), st)
    | None => (Raised (OSError "No such file or directory"), st)
    end.

(** [os.listdir(p)]. *)
Definition os_listdir (p : Path) : M (list string) :=
  fun st =>
    match fs st !! p with
    | Some (Dir es) => (Returned es, st)
    | Some (File _) => (Raised (OSError "Not a directory"), st)
    | None => (Raised (OSError "No such file or directory"), st)
    end.

(** ** The theme manager *)

(** [key in d]. *)
Definition has_key (key : string) (d : ThemeDef) : bool :=
  match d !! key with
  | Some _ => true
  | None => false
  end.

(** [self.app.register_theme(t)]: the runtime files the theme under its
    name. *)
Definition register_theme (t : Theme) : M unit :=
  fun st =>
    match app st with
    | Some a =>
        (Returned tt,
         emit (RegisterTheme t)
           (with_app (Some (mkApp (dict_set (theme_name t) t (available_themes a))
                                  (theme a))) st))
    | None =>
        (Raised (AttributeError "'NoneType' object has no attribute 'register_theme'"), st)
    end.

(** [self.log_it(msg, notify=..., severity=...)]. *)
Definition log_it (msg : string) (notify : bool) (severity : string) : M unit :=
  modify (emit (LogIt msg notify severity)).

Definition app_not_initialized : exn := Exception "App is not initialized".

(** [bool(self.app)]: an application object is true, [None] is false. *)
Definition truthy (a : option App) : bool :=
  match a with
  | Some _ => true
  | None => false
  end.

Section ThemeManager.

Context `{Env}.

(** [self.theme_folder], set in [__init__]. *)
Definition theme_folder : Path := (data_dir settings / "themes")%path.

(** [self._secure_ops], set in [__init__]. *)
Definition secure_ops : SecureFileOperations :=
  mkSecureOps (max_json_size_mb settings) (allowed_json_extensions settings)
              (validate_file_content settings) (sanitize_filenames settings).

(** [self._secure_ops.read_json_file(file)]. *)
Definition secure_read (file : Path) : M ThemeDef :=
  fun st => of_result (read_json_file secure_ops (fs st) file) (emit (ReadJson file) st).

(** [ThemeManager.ensure_default_theme]. *)
Definition ensure_default_theme : M unit :=
  let default_theme_file : Path := (module_dir / "themes" / "par.json")%path in
  present <- gets (fun st => path_exists theme_folder (fs st)) ;;
  (if negb present then mkdir_parents theme_folder else ret tt) ;;;
  let theme_file : Path := (theme_folder / "par.json")%path in
  present <- gets (fun st => path_exists theme_file (fs st)) ;;
  if negb present then shutil_copy default_theme_file theme_file else ret tt.

(** The path [load_theme] asks the accessor for. *)
Definition theme_file_of (theme_name : string) : Path :=
  (theme_folder / (Py.basename theme_name +:+ ".json"))%path.

(** [Theme(name=name, **attrs)]. *)
Definition new_theme (name : string) (attrs : Attrs) : M Theme :=
  match theme_kwargs_error attrs with
  | Some e => raise e
  | None => ret (mkTheme name attrs)
  end.

(** The body of the [try] block of [load_theme]. *)
Definition load_theme_try (theme_name : string) (theme_file : Path) : M unit :=
  theme_def <- secure_read theme_file ;;
  if negb (has_key "dark" theme_def) && negb (has_key "light" theme_def)
  then raise (ThemeModeError theme_name)
  else
    for_each ThemeModes (fun mode =>
      match theme_def !! mode with
      | Some attrs =>
          t <- new_theme (theme_name +:+ "_" +:+ mode) attrs ;;
          register_theme t
      | None => ret tt
      end).

(** [ThemeManager.load_theme]; [fuel] bounds the depth of the recursion
    through the fallback. *)
Fixpoint load_theme (fuel : nat) (theme_name : string) : M unit :=
  match fuel with
  | O => fun st => (OutOfFuel, st)
  | S fuel =>
      a <- gets app ;;
      if negb (truthy a) then raise app_not_initialized else
      let theme_name := Py.basename theme_name in
      let theme_file : Path := (theme_folder / (theme_name +:+ ".json"))%path in
      try_except
        (load_theme_try theme_name theme_file)
        is_secure_or_os_error
        (fun e =>
           log_it ("Error loading theme " +:+ theme_name +:+ ": " +:+ exn_str e)
                  true "error" ;;;
           if negb (String.eqb theme_name (theme_fallback_name settings)) then
             try_except
               (load_theme fuel (theme_fallback_name settings))
               is_exception
               (fun _ =>
                  log_it ("Failed to load fallback theme "
                          +:+ theme_fallback_name settings) true "error")
           else ret tt)
  end.

(** The argument [load_themes] passes to [load_theme] for a directory
    entry. *)
Definition theme_arg (file : string) : string :=
  Py.path_str theme_folder +:+ "/" +:+ Py.splitext_root file.

(** The body of the loop of [load_themes]. *)
Definition load_entry (fuel : nat) (file : string) : M unit :=
  if Py.endswith (Py.lower file) ".json"
  then load_theme fuel (theme_arg file)
  else ret tt.

(** [ThemeManager.load_themes]. *)
Definition load_themes (fuel : nat) : M unit :=
  ensure_default_theme ;;;
  files <- os_listdir theme_folder ;;
  for_each files (load_entry fuel).

(** [ThemeManager.set_app]. *)
Definition set_app (fuel : nat) (a : option App) : M unit :=
  modify (with_app a) ;;;
  load_themes fuel.

(** [ThemeManager.get_theme]. *)
Definition get_theme (theme_name : string) : M Theme :=
  a <- gets app ;;
  match a with
  | None => raise app_not_initialized
  | Some a =>
      match dict_get theme_name (available_themes a) with
      | Some t => ret t
      | None => raise (KeyError theme_name)
      end
  end.

(** [ThemeManager.list_themes]. *)
Definition list_themes : M (list string) :=
  a <- gets app ;;
  match a with
  | None => raise app_not_initialized
  | Some a => ret (dict_keys (available_themes a))
  end.

(** [ThemeManager.theme_select_options]. *)
Definition theme_select_options : M (list (string * string)) :=
  themes <- list_themes ;;
  ret (map (fun theme => (theme, theme)) themes).

(** [ThemeManager.change_theme]. *)
Definition change_theme (theme_name : string) : M unit :=
  a <- gets app ;;
  match a with
  | None => raise app_not_initialized
  | Some a =>
      modify (with_app (Some (mkApp (available_themes a) theme_name)))
  end.

End ThemeManager.

(** ** Vocabulary of the statements *)

(** The themes a definition yields for base name [base], in the order of
    [ThemeModes]. *)
Definition themes_in (base : string) (d : ThemeDef) : list Theme :=
  omap (fun mode => mkTheme (base +:+ "_" +:+ mode) <$> d !! mode) ThemeModes.

(** The registry after registering [ts] one after the other. *)
Definition register_all (ts : list Theme) (reg : list (string * Theme))
  : list (string * Theme) :=
  fold_left (fun reg t => dict_set (theme_name t) t reg) ts reg.

(** The state after the loop over [ThemeModes] has registered the themes of
    [d] with application [a]. *)
Definition registered (base : string) (d : ThemeDef) (a : App) (st : State) : State :=
  mkState (Some (mkApp (register_all (themes_in base d) (available_themes a)) (theme a)))
          (fs st)
          (events st ++ map RegisterTheme (themes_in base d)).

(** The keys of the runtime's registry, none when there is no runtime. *)
Definition theme_keys (st : State) : list string :=
  match app st with
  | Some a => dict_keys (available_themes a)
  | None => []
  end.

(** From [st] to [st'] nothing happened but registrations: the disk is the
    same, the application is still there, the new events are registrations,
    and no key left the registry. *)
Definition only_registers (st st' : State) : Prop :=
  fs st' = fs st /\
  truthy (app st') = truthy (app st) /\
  (exists regs : list Theme, events st' = events st ++ map RegisterTheme regs) /\
  (forall k : string, In k (theme_keys st) -> In k (theme_keys st')).

(** The two messages [load_theme] logs. *)
Definition error_loading (base : string) (e : exn) : Event :=
  LogIt ("Error loading theme " +:+ base +:+ ": " +:+ exn_str e) true "error".

Definition fallback_failed (fallback : string) : Event :=
  LogIt ("Failed to load fallback theme " +:+ fallback) true "error".

(** The paths among a list of events that were asked of the accessor. *)
Definition reads (evs : list Event) : list Path :=
  omap (fun ev => match ev with ReadJson p => Some p | _ => None end) evs.

(** The themes among a list of events that were handed to the runtime. *)
Definition registrations (evs : list Event) : list Theme :=
  omap (fun ev => match ev with RegisterTheme t => Some t | _ => None end) evs.

(** The messages among a list of events that were logged. *)
Definition logged (evs : list Event) : list Event :=
  List.filter (fun ev => match ev with LogIt _ _ _ => true | _ => false end) evs.

(** [p] is a file directly inside [dir]: one more part, which is a plain
    name. *)
Definition direct_child (dir p : Path) : Prop :=
  exists c : string,
    p = dir ++ [c] /\ Py.has_char "/" c = false /\ Py.is_part c = true /\ c <> "..".

(** ** A concrete installation

    The settings the application ships with, a secure file accessor, and a
    few disks, for running the operations above on actual inputs. *)

(** Modelled from the spec: the Secure File Accessor ([read_json_file] of
    parllama.secure_file_ops, which is not among the sources). Section 4.1:
    it rejects a path whose extension is not allowed or whose file is larger
    than the configured maximum (AccessDenied), reports a missing path
    (NotFound) and content that is not well-formed (ParseError), returns the
    parsed mapping otherwise, and never writes. *)
Definition spec_read_json_file (ops : SecureFileOperations) (f : FileSystem)
  (file : Path) : Result ThemeDef :=
  if negb (existsb (Py.endswith (Py.lower (Py.name file))) (allowed_extensions ops))
  then inl (SecureFileOpsError AccessDenied "extension not allowed")
  else
    match f !! file with
    | None => inl (SecureFileOpsError NotFound "file not found")
    | Some (Dir _) => inl (SecureFileOpsError AccessDenied "not a regular file")
    | Some (File c) =>
        if (max_file_size_mb ops <? file_size_mb c)%nat
        then inl (SecureFileOpsError AccessDenied "file too large")
        else match file_json c with
             | Some d => inr d
             | None => inl (SecureFileOpsError ParseError "invalid JSON")
             end
    end.

Definition sample_settings : Settings :=
  mkSettings ["/"; "d"] "par" 10 [".json"] true true.

(** Python itself refuses a second value for the keyword [name]. *)
Definition sample_kwargs_error (attrs : Attrs) : option exn :=
  match attrs !! "name" with
  | Some _ => Some (TypeError "got multiple values for keyword argument 'name'")
  | None => None
  end.

Definition sample_env : Env :=
  mkEnv sample_settings ["/"; "pkg"] spec_read_json_file sample_kwargs_error.

(** The same installation with a fallback name that carries a directory. *)
Definition nested_fallback_env : Env :=
  mkEnv (mkSettings ["/"; "d"] "x/par" 10 [".json"] true true)
        ["/"; "pkg"] spec_read_json_file sample_kwargs_error.

Definition dark_attrs : Attrs := {[ "primary" := "#000" ]}.
Definition light_attrs : Attrs := {[ "primary" := "#fff" ]}.

Definition both_modes : ThemeDef := {[ "dark" := dark_attrs; "light" := light_attrs ]}.
Definition light_only : ThemeDef := {[ "light" := light_attrs ]}.
Definition no_mode : ThemeDef := {[ "colors" := dark_attrs ]}.

Definition json_file (d : ThemeDef) : FileContent := mkFile 1 (Some d).
Definition broken_file : FileContent := mkFile 1 None.

(** A disk whose theme folder [/d/themes] holds the given files, listed in
    the given order. *)
Definition disk_with (files : list (string * FileContent)) : FileSystem :=
  <[ ["/"; "d"; "themes"] := Dir (map fst files) ]>
    (foldr (fun nc f => <[ ["/"; "d"; "themes"; nc.1] := File nc.2 ]> f)
           ({[ ["/"; "d"] := Dir ["themes"] ]} : FileSystem) files).

(** A disk with the bundled asset only: no data directory yet. *)
Definition fresh_disk : FileSystem :=
  {[ ["/"; "pkg"; "themes"] := Dir ["par.json"];
     ["/"; "pkg"; "themes"; "par.json"] := File (json_file both_modes) ]}.

(** The theme folder with the default theme only. *)
Definition par_disk : FileSystem := disk_with [("par.json", json_file both_modes)].

(** An empty theme folder. *)
Definition empty_disk : FileSystem := disk_with [].

(** A theme with the light mode only. *)
Definition custom_disk : FileSystem := disk_with [("custom.json", json_file light_only)].

(** A theme file that parses but defines no mode, listed first. *)
Definition plain_disk : FileSystem :=
  disk_with [("plain.json", json_file no_mode); ("par.json", json_file both_modes)].

(** An unparsable theme file, listed first, and a good one. *)
Definition mixed_disk : FileSystem :=
  disk_with [("bad.json", broken_file); ("par.json", json_file both_modes)].

(** A default theme that defines no mode. *)
Definition modeless_par_disk : FileSystem := disk_with [("par.json", json_file no_mode)].

Definition running_app : App := mkApp [] "textual-dark".

Definition started (f : FileSystem) : State := mkState (Some running_app) f [].
Definition not_started (f : FileSystem) : State := mkState None f [].

(** ** More of the module, and more vocabulary *)

(** The exception objects of this module, by what their constructors
    store: the attribute [theme_name] and the message handed to
    [Exception.__init__]. *)
Record ThemeError : Type := mkThemeError {
  error_theme_name : string;
  error_message : string
}.

(** [InvalidThemeError.__init__(self, theme_name)]. *)
Definition InvalidThemeError_init (theme_name : string) : ThemeError :=
  mkThemeError theme_name ("Invalid theme: " +:+ theme_name).

(** [ThemeModeError.__init__(self, theme_name)]: the call of
    [super().__init__] passes the sentence, not the name. *)
Definition ThemeModeError_init (theme_name : string) : ThemeError :=
  InvalidThemeError_init
    ("Theme '" +:+ theme_name
     +:+ "' does not have at least one of 'dark' or 'light' modes.").

(** The test [load_themes] puts to a directory entry. *)
Definition is_json_entry (file : string) : bool :=
  Py.endswith (Py.lower file) ".json".

(** [self.app.theme], when there is an application. *)
Definition active_theme (st : State) : option string :=
  theme <$> app st.

(** A definition whose light mode passes [name] as an attribute. *)
Definition named_light : ThemeDef :=
  {[ "dark" := dark_attrs; "light" := ({[ "name" := "x" ]} : Attrs) ]}.

Definition half_disk : FileSystem := disk_with [("half.json", json_file named_light)].

(** A theme folder with entries of several kinds, in an order of its own. *)
Definition listed_disk : FileSystem :=
  disk_with [("b.json", json_file both_modes); ("notes.txt", broken_file);
             ("par.json", json_file both_modes); ("a.json", json_file light_only)].

(** A disk where the theme folder's path is taken by a regular file. *)
Definition blocked_disk : FileSystem :=
  {[ ["/"; "d"] := Dir ["themes"]; ["/"; "d"; "themes"] := File broken_file ]}.

(** From [st] to [st'] the registry only grew at its end and the active
    theme stayed. *)
Definition registry_grows (st st' : State) : Prop :=
  active_theme st' = active_theme st /\
  exists new : list string, theme_keys st' = theme_keys st ++ new.

(** ** Strings and paths: facts *)

Lemma string_app_cons (a : ascii) (r s : string) :
  String a r +:+ s = String a (r +:+ s).
Proof. reflexivity. Qed.

Lemma string_app_nil_l (s : string) : "" +:+ s = s.
Proof. reflexivity. Qed.

Ltac sapp := rewrite ?string_app_cons, ?string_app_nil_l in *.

Lemma string_app_nil_r (s : string) : s +:+ "" = s.
Proof. induction s as [|a r IH]; sapp; [reflexivity | now rewrite IH]. Qed.

Lemma string_app_assoc (a b c : string) : (a +:+ b) +:+ c = a +:+ (b +:+ c).
Proof. induction a as [|x r IH]; sapp; [reflexivity | now rewrite IH]. Qed.

Lemma has_char_app (c : ascii) (a b : string) :
  Py.has_char c (a +:+ b) = Py.has_char c a || Py.has_char c b.
Proof.
  induction a as [|x r IH]; sapp; simpl; [reflexivity |].
  rewrite IH. now rewrite orb_assoc.
Qed.

Lemma split_slash_nonempty (s : string) : Py.split_slash s <> [].
Proof.
  induction s as [|a r IH]; simpl; [discriminate |].
  destruct (Ascii.eqb a "/"); [discriminate |].
  destruct (Py.split_slash r); discriminate.
Qed.

Lemma split_slash_no_slash (s : string) :
  Forall (fun c => Py.has_char "/" c = false) (Py.split_slash s).
Proof.
  induction s as [|a r IH]; simpl.
  - constructor; [reflexivity | constructor].
  - destruct (Ascii.eqb a "/") eqn:Ha.
    + constructor; [reflexivity | exact IH].
    + destruct (Py.split_slash r) as [|h t].
      * constructor; [simpl; now rewrite Ha | constructor].
      * inversion IH as [|? ? Hh Ht]; subst.
        constructor; [simpl; now rewrite Ha, Hh | exact Ht].
Qed.

Lemma split_slash_id (s : string) :
  Py.has_char "/" s = false -> Py.split_slash s = [s].
Proof.
  induction s as [|a r IH]; simpl; [reflexivity |].
  intros Hs. apply orb_false_iff in Hs as [Ha Hr].
  rewrite Ha, (IH Hr). reflexivity.
Qed.

Lemma split_slash_app (a b : string) :
  Py.split_slash (a +:+ "/" +:+ b) = Py.split_slash a ++ Py.split_slash b.
Proof.
  induction a as [|x r IH]; sapp; [reflexivity |].
  cbn [Py.split_slash]. rewrite IH. destruct (Ascii.eqb x "/"); [reflexivity |].
  destruct (Py.split_slash r) as [|h t] eqn:Hr; [| reflexivity].
  now apply split_slash_nonempty in Hr.
Qed.

Lemma last_app_nonempty {A : Type} (l1 l2 : list A) (d : A) :
  l2 <> [] -> List.last (l1 ++ l2) d = List.last l2 d.
Proof.
  intros Hne. induction l1 as [|x l1 IH]; [reflexivity |].
  simpl. destruct (l1 ++ l2) eqn:E; [| exact IH].
  apply app_eq_nil in E as [_ E]. contradiction.
Qed.

Lemma basename_no_slash (p : string) : Py.has_char "/" (Py.basename p) = false.
Proof.
  unfold Py.basename.
  pose proof (split_slash_no_slash p) as Hall.
  pose proof (split_slash_nonempty p) as Hne.
  induction (Py.split_slash p) as [|h t IH]; [contradiction |].
  inversion Hall as [|? ? Hh Ht]; subst.
  destruct t as [|h' t']; [exact Hh |].
  apply IH; [exact Ht | discriminate].
Qed.

Lemma basename_id (s : string) :
  Py.has_char "/" s = false -> Py.basename s = s.
Proof. intros Hs. unfold Py.basename. now rewrite (split_slash_id s Hs). Qed.

Lemma basename_join (a b : string) :
  Py.basename (a +:+ "/" +:+ b) = Py.basename b.
Proof.
  unfold Py.basename. rewrite split_slash_app.
  apply last_app_nonempty, split_slash_nonempty.
Qed.

Lemma basename_idempotent (p : string) :
  Py.basename (Py.basename p) = Py.basename p.
Proof. apply basename_id, basename_no_slash. Qed.

Lemma is_absolute_no_slash (s : string) :
  Py.has_char "/" s = false -> Py.is_absolute s = false.
Proof.
  destruct s as [|a r]; simpl; [reflexivity |].
  intros Hs. now apply orb_false_iff in Hs as [Ha _].
Qed.

Lemma joinpath_child (p : Path) (c : string) :
  Py.has_char "/" c = false -> Py.is_part c = true ->
  (p / c)%path = p ++ [c].
Proof.
  intros Hs Hp. unfold Py.joinpath, Py.parts_of.
  rewrite (is_absolute_no_slash c Hs), (split_slash_id c Hs).
  simpl. now rewrite Hp.
Qed.

Lemma json_name_is_part (b : string) : Py.is_part (b +:+ ".json") = true.
Proof.
  destruct b as [|x r]; [reflexivity |].
  unfold Py.is_part. destruct r as [|y r]; sapp; simpl;
    destruct (Ascii.eqb x "."); reflexivity.
Qed.

Lemma json_name_not_dotdot (b : string) : b +:+ ".json" <> "..".
Proof. destruct b as [|x [|y [|z r]]]; sapp; discriminate. Qed.

Lemma json_name_no_slash (b : string) :
  Py.has_char "/" b = false -> Py.has_char "/" (b +:+ ".json") = false.
Proof. intros Hb. rewrite has_char_app, Hb. reflexivity. Qed.

Lemma cut_ext_json (g : string) : Py.cut_ext (g +:+ ".json") = g.
Proof.
  induction g as [|a r IH]; [reflexivity |].
  sapp. cbn [Py.cut_ext]. rewrite has_char_app. simpl Py.has_char at 2.
  rewrite orb_true_r. now rewrite IH.
Qed.

Lemma splitext_name_json (stem : string) :
  only_dots stem = false -> Py.splitext_name (stem +:+ ".json") = stem.
Proof.
  induction stem as [|a r IH]; [discriminate |].
  intros Hd. rewrite string_app_cons.
  cbn [Py.splitext_name]. cbn [only_dots] in Hd.
  destruct (Ascii.eqb a ".") eqn:Ha.
  - simpl in Hd. now rewrite (IH Hd).
  - rewrite <- string_app_cons. apply cut_ext_json.
Qed.

Lemma splitext_root_json (stem : string) :
  Py.has_char "/" stem = false -> only_dots stem = false ->
  Py.splitext_root (stem +:+ ".json") = stem.
Proof.
  intros Hs Hd. destruct stem as [|a r]; [discriminate |].
  rewrite string_app_cons.
  cbn [Py.splitext_root]. simpl in Hs. apply orb_false_iff in Hs as [Ha Hr].
  rewrite has_char_app, Hr, Ha. cbn [Py.has_char Ascii.eqb Bool.eqb orb].
  rewrite <- string_app_cons.
  now apply splitext_name_json.
Qed.

(** ** One call of [load_theme], case by case *)

Section Loader.

Context `{Env}.

Lemma theme_folder_eq : theme_folder = data_dir settings ++ ["themes"].
Proof. reflexivity. Qed.

Lemma theme_file_of_eq (name : string) :
  theme_file_of name = theme_folder ++ [Py.basename name +:+ ".json"].
Proof.
  unfold theme_file_of. apply joinpath_child.
  - apply json_name_no_slash, basename_no_slash.
  - apply json_name_is_part.
Qed.

Lemma theme_file_direct_child (name : string) :
  direct_child theme_folder (theme_file_of name).
Proof.
  exists (Py.basename name +:+ ".json"). split; [apply theme_file_of_eq |].
  split; [apply json_name_no_slash, basename_no_slash |].
  split; [apply json_name_is_part | apply json_name_not_dotdot].
Qed.

Lemma dict_keys_set {V : Type} (k k' : string) (v : V) (d : list (string * V)) :
  In k' (dict_keys (dict_set k v d)) <-> k' = k \/ In k' (dict_keys d).
Proof.
  induction d as [|[k0 v0] d IH]; cbn.
  - intuition.
  - destruct (String.eqb_spec k0 k) as [->|Hne]; cbn; [intuition |].
    unfold dict_keys in IH. rewrite IH. intuition.
Qed.

Lemma register_all_keeps (ts : list Theme) (reg : list (string * Theme)) (k : string) :
  In k (dict_keys reg) -> In k (dict_keys (register_all ts reg)).
Proof.
  revert reg. induction ts as [|t ts IH]; intros reg Hk; [exact Hk |].
  apply IH, dict_keys_set. now right.
Qed.

Lemma register_all_adds (ts : list Theme) (reg : list (string * Theme)) (t : Theme) :
  In t ts -> In (theme_name t) (dict_keys (register_all ts reg)).
Proof.
  revert reg. induction ts as [|t0 ts IH]; intros reg; [contradiction |].
  change (register_all (t0 :: ts) reg)
    with (register_all ts (dict_set (theme_name t0) t0 reg)).
  intros [->|Ht]; [| now apply IH].
  apply register_all_keeps, dict_keys_set. now left.
Qed.

(** A theme of a present mode is among the themes of the definition. *)
Lemma themes_in_mode (base mode : string) (d : ThemeDef) (attrs : Attrs) :
  In mode ThemeModes -> d !! mode = Some attrs ->
  In (mkTheme (base +:+ "_" +:+ mode) attrs) (themes_in base d).
Proof.
  intros Hmode Hd. unfold themes_in. apply list_elem_of_In, list_elem_of_omap.
  exists mode. split; [now apply list_elem_of_In | now rewrite Hd].
Qed.

Lemma only_registers_refl (st : State) : only_registers st st.
Proof.
  repeat split; [| auto]. exists []. cbn. now rewrite app_nil_r.
Qed.

Lemma only_registers_trans (st1 st2 st3 : State) :
  only_registers st1 st2 -> only_registers st2 st3 -> only_registers st1 st3.
Proof.
  intros (Hf & Ha & (r & He) & Hk) (Hf' & Ha' & (r' & He') & Hk').
  repeat split; [congruence | congruence | | auto].
  exists (r ++ r'). rewrite He', He, map_app. now rewrite app_assoc.
Qed.

Lemma register_theme_effects (t : Theme) (st : State) :
  only_registers st (register_theme t st).2 /\ (register_theme t st).1 <> OutOfFuel.
Proof.
  unfold register_theme. destruct (app st) as [a|] eqn:Ha.
  - split; [| discriminate]. repeat split; cbn; [now rewrite Ha | now exists [t] |].
    unfold theme_keys. rewrite Ha. cbn. intros k Hk. apply dict_keys_set. now right.
  - split; [apply only_registers_refl | discriminate].
Qed.

Lemma bind_run {A B : Type} (m : M A) (k : A -> M B) (st : State) :
  bind m k st =
  match m st with
  | (Returned a, st') => k a st'
  | (Raised e, st') => (Raised e, st')
  | (OutOfFuel, st') => (OutOfFuel, st')
  end.
Proof. reflexivity. Qed.

Lemma new_theme_run (name : string) (attrs : Attrs) (st : State) :
  new_theme name attrs st =
  match theme_kwargs_error attrs with
  | Some e => (Raised e, st)
  | None => (Returned (mkTheme name attrs), st)
  end.
Proof. unfold new_theme. now destruct (theme_kwargs_error attrs). Qed.

(** One pass of the loop over [ThemeModes], and the whole loop. *)
Lemma register_modes_effects (base : string) (d : ThemeDef) (modes : list string)
    (st : State) :
  let run :=
    for_each modes (fun mode =>
      match d !! mode with
      | Some attrs =>
          t <- new_theme (base +:+ "_" +:+ mode) attrs ;;
          register_theme t
      | None => ret tt
      end) st in
  only_registers st run.2 /\ run.1 <> OutOfFuel.
Proof.
  cbv zeta. revert st. induction modes as [|mode modes IH]; intros st.
  - split; [apply only_registers_refl | discriminate].
  - cbn [for_each]. rewrite bind_run.
    destruct (d !! mode) as [attrs|].
    + rewrite bind_run, new_theme_run.
      destruct (theme_kwargs_error attrs) as [e|];
        [split; [apply only_registers_refl | discriminate] |].
      destruct (register_theme_effects (mkTheme (base +:+ "_" +:+ mode) attrs) st)
        as [Hreg Hfuel].
      destruct (register_theme _ st) as [[[]|e|] st1]; cbn [fst snd] in *;
        [| split; [exact Hreg | discriminate] | contradiction].
      destruct (IH st1) as [Hrest Hfuel']. split; [| exact Hfuel'].
      eapply only_registers_trans; eauto.
    + unfold ret at 1. apply IH.
Qed.

(** When the constructor takes every present mode, the loop registers the
    themes of the definition. *)
Lemma register_modes_accepted (base : string) (d : ThemeDef) (a : App) (st : State) :
  app st = Some a ->
  (forall (mode : string) (attrs : Attrs),
      In mode ThemeModes -> d !! mode = Some attrs -> theme_kwargs_error attrs = None) ->
  for_each ThemeModes (fun mode =>
    match d !! mode with
    | Some attrs =>
        t <- new_theme (base +:+ "_" +:+ mode) attrs ;;
        register_theme t
    | None => ret tt
    end) st = (Returned tt, registered base d a st).
Proof.
  intros Ha Hok. unfold registered, themes_in, ThemeModes.
  cbn [for_each omap list_omap]. unfold bind, new_theme.
  pose proof (Hok "dark") as Hdark. pose proof (Hok "light") as Hlight.
  destruct st as [ap f evs]. cbn [app] in Ha. subst ap. destruct a as [reg th].
  destruct (d !! "dark") as [ad|], (d !! "light") as [al|];
    rewrite ?(Hdark _ (or_introl eq_refl) eq_refl),
            ?(Hlight _ (or_intror (or_introl eq_refl)) eq_refl);
    unfold register_theme, ret, emit, with_app;
    cbn [app fs events fmap option_fmap option_map map register_all fold_left
         theme_name available_themes theme];
    rewrite <- ?app_assoc, ?app_nil_r; reflexivity.
Qed.

(** The [try] block, case by case. *)
Lemma try_read_failed (base : string) (file : Path) (st : State) (e : exn) :
  read_json_file secure_ops (fs st) file = inl e ->
  load_theme_try base file st = (Raised e, emit (ReadJson file) st).
Proof.
  intros Hr. unfold load_theme_try, bind, secure_read. now rewrite Hr.
Qed.

Lemma try_no_mode (base : string) (file : Path) (st : State) (d : ThemeDef) :
  read_json_file secure_ops (fs st) file = inr d ->
  d !! "dark" = None -> d !! "light" = None ->
  load_theme_try base file st = (Raised (ThemeModeError base), emit (ReadJson file) st).
Proof.
  intros Hr Hd Hl. unfold load_theme_try, bind, secure_read. rewrite Hr.
  cbn [of_result]. unfold ret at 1, has_key. now rewrite Hd, Hl.
Qed.

Lemma try_valid (base : string) (file : Path) (st : State) (a : App) (d : ThemeDef) :
  app st = Some a ->
  read_json_file secure_ops (fs st) file = inr d ->
  is_Some (d !! "dark") \/ is_Some (d !! "light") ->
  (forall (mode : string) (attrs : Attrs),
      In mode ThemeModes -> d !! mode = Some attrs -> theme_kwargs_error attrs = None) ->
  load_theme_try base file st
  = (Returned tt, registered base d a (emit (ReadJson file) st)).
Proof.
  intros Ha Hr Hmode Hok. unfold load_theme_try, bind at 1, secure_read. rewrite Hr.
  cbn [of_result]. unfold ret at 1.
  assert (negb (has_key "dark" d) && negb (has_key "light" d) = false) as ->.
  { unfold has_key. destruct Hmode as [[x ->]|[x ->]]; [reflexivity |].
    now rewrite andb_false_r. }
  now apply register_modes_accepted.
Qed.

(** Whatever the [try] block does: one read, then registrations only. *)
Lemma try_effects (base : string) (file : Path) (st : State) :
  only_registers (emit (ReadJson file) st) (load_theme_try base file st).2 /\
  (load_theme_try base file st).1 <> OutOfFuel.
Proof.
  unfold load_theme_try. rewrite bind_run. unfold secure_read.
  destruct (read_json_file secure_ops (fs st) file) as [e|d];
    cbn [of_result raise ret].
  - split; [apply only_registers_refl | discriminate].
  - destruct (negb (has_key "dark" d) && negb (has_key "light" d)).
    + split; [apply only_registers_refl | discriminate].
    + apply register_modes_effects.
Qed.

(** What one call does, the [try] block and the recursive call left as
    they are. *)
Lemma load_theme_step (n : nat) (name : string) (st : State) :
  load_theme (S n) name st =
  match app st with
  | None => (Raised app_not_initialized, st)
  | Some a =>
      let base := Py.basename name in
      match load_theme_try base (theme_file_of name) st with
      | (Returned _, st1) => (Returned tt, st1)
      | (Raised e, st1) =>
          if is_secure_or_os_error e then
            let st2 := emit (error_loading base e) st1 in
            if String.eqb base (theme_fallback_name settings)
            then (Returned tt, st2)
            else match load_theme n (theme_fallback_name settings) st2 with
                 | (Returned _, st3) => (Returned tt, st3)
                 | (Raised _, st3) =>
                     (Returned tt, emit (fallback_failed (theme_fallback_name settings)) st3)
                 | (OutOfFuel, st3) => (OutOfFuel, st3)
                 end
          else (Raised e, st1)
      | (OutOfFuel, st1) => (OutOfFuel, st1)
      end
  end.
Proof.
  cbn [load_theme]. unfold bind at 1, gets.
  destruct (app st) as [a|] eqn:Ha; [| reflexivity].
  cbn [negb truthy]. unfold try_except. fold (theme_file_of name). cbv zeta.
  destruct (load_theme_try (Py.basename name) (theme_file_of name) st)
    as [[[]|e|] st1]; [reflexivity | | reflexivity].
  destruct (is_secure_or_os_error e); [| reflexivity].
  unfold bind at 1, log_it, modify. fold (error_loading (Py.basename name) e).
  destruct (String.eqb (Py.basename name) (theme_fallback_name settings));
    cbn [negb]; [reflexivity |].
  destruct (load_theme n (theme_fallback_name settings) _) as [[[]|e'|] st3];
    reflexivity.
Qed.

Lemma reads_app (l1 l2 : list Event) : reads (l1 ++ l2) = reads l1 ++ reads l2.
Proof. apply omap_app. Qed.

Lemma reads_registrations (ts : list Theme) : reads (map RegisterTheme ts) = [].
Proof. induction ts as [|t ts IH]; [reflexivity | exact IH]. Qed.

Lemma registrations_app (l1 l2 : list Event) :
  registrations (l1 ++ l2) = registrations l1 ++ registrations l2.
Proof. apply omap_app. Qed.

Lemma registrations_map (ts : list Theme) : registrations (map RegisterTheme ts) = ts.
Proof.
  induction ts as [|t ts IH]; [reflexivity |].
  change (registrations (map RegisterTheme (t :: ts)))
    with (t :: registrations (map RegisterTheme ts)).
  now rewrite IH.
Qed.

Lemma reads_cons_read (p : Path) (l : list Event) :
  reads (ReadJson p :: l) = p :: reads l.
Proof. reflexivity. Qed.

Lemma reads_cons_log (m : string) (b : bool) (sv : string) (l : list Event) :
  reads (LogIt m b sv :: l) = reads l.
Proof. reflexivity. Qed.

Lemma reads_cons_register (t : Theme) (l : list Event) :
  reads (RegisterTheme t :: l) = reads l.
Proof. reflexivity. Qed.

Ltac reads_norm :=
  unfold error_loading, fallback_failed;
  rewrite ?reads_cons_read, ?reads_cons_log, ?reads_app, ?reads_cons_read,
    ?reads_cons_log, ?reads_registrations;
  change (reads []) with (@nil Path); rewrite ?app_nil_r.

(** What every call leaves behind, however it ends: the disk as it was,
    the application still set or still unset, new events after the old
    ones, every read a file directly inside the theme folder and no more
    reads than calls, no key gone from the registry, and never an accessor
    or storage error as the outcome. *)
Lemma load_theme_effects (fuel : nat) (name : string) (st : State) :
  fs (load_theme fuel name st).2 = fs st /\
  truthy (app (load_theme fuel name st).2) = truthy (app st) /\
  (exists evs : list Event,
      events (load_theme fuel name st).2 = events st ++ evs /\
      Forall (direct_child theme_folder) (reads evs) /\
      length (reads evs) <= fuel) /\
  (forall k : string, In k (theme_keys st) ->
                      In k (theme_keys (load_theme fuel name st).2)) /\
  (forall e : exn, (load_theme fuel name st).1 = Raised e ->
                   is_secure_or_os_error e = false).
Proof.
  revert name st. induction fuel as [|n IH]; intros name st.
  - cbn. repeat split; [| auto | discriminate]. exists []. rewrite app_nil_r.
    repeat split; [constructor | reflexivity].
  - rewrite load_theme_step.
    destruct (app st) as [a|] eqn:Ha.
    2:{ cbn. rewrite Ha. repeat split.
        - exists []. rewrite app_nil_r. repeat split; [constructor | cbn; lia].
        - auto.
        - intros e [= <-]. reflexivity. }
    pose proof (theme_file_direct_child name) as Hchild.
    cbv zeta.
    destruct (try_effects (Py.basename name) (theme_file_of name) st)
      as [(Hfs1 & Happ1 & (regs & Hev1) & Hkeys1) Hfuel1].
    destruct (load_theme_try (Py.basename name) (theme_file_of name) st)
      as [[[]|e|] st1]; cbn [fst snd emit fs app events] in *; [| | contradiction].
    + rewrite Hfs1, Happ1, Hev1, Ha. repeat split; [| exact Hkeys1 | discriminate].
      exists (ReadJson (theme_file_of name) :: map RegisterTheme regs).
      rewrite <- app_assoc. split; [reflexivity |].
      reads_norm. split; [now constructor | cbn; lia].
    + destruct (is_secure_or_os_error e) eqn:He.
      * destruct (String.eqb (Py.basename name) (theme_fallback_name settings)).
        { cbn [fst snd emit fs app events]. rewrite Hfs1, Happ1, Hev1, Ha.
          repeat split; [| exact Hkeys1 | discriminate].
          exists (ReadJson (theme_file_of name)
                   :: map RegisterTheme regs ++ [error_loading (Py.basename name) e]).
          rewrite <- !app_assoc. split; [reflexivity |].
          reads_norm. split; [now constructor | cbn; lia]. }
        destruct (IH (theme_fallback_name settings)
                     (emit (error_loading (Py.basename name) e) st1))
          as (Hfs & Happ & (evs & Hevs & Hall & Hlen) & Hkeys & Hexn).
        destruct (load_theme n (theme_fallback_name settings)
                    (emit (error_loading (Py.basename name) e) st1))
          as [[[]|e'|] st3]; cbn [fst snd emit fs app events] in *;
          rewrite Hfs, Happ, Hevs, Hev1, Hfs1, Happ1, Ha;
          (repeat split; [| intros k Hk; apply Hkeys, Hkeys1, Hk | discriminate]).
        { exists (ReadJson (theme_file_of name)
                   :: (map RegisterTheme regs ++ [error_loading (Py.basename name) e])
                   ++ evs).
          rewrite <- !app_assoc. split; [reflexivity |].
          reads_norm. split; [now constructor | cbn; lia]. }
        { exists (ReadJson (theme_file_of name)
                   :: (map RegisterTheme regs ++ [error_loading (Py.basename name) e])
                   ++ evs ++ [fallback_failed (theme_fallback_name settings)]).
          rewrite <- !app_assoc. split; [reflexivity |].
          reads_norm. split; [now constructor | cbn; lia]. }
        { exists (ReadJson (theme_file_of name)
                   :: (map RegisterTheme regs ++ [error_loading (Py.basename name) e])
                   ++ evs).
          rewrite <- !app_assoc. split; [reflexivity |].
          reads_norm. split; [now constructor | cbn; lia]. }
      * cbn [fst snd]. rewrite Hfs1, Happ1, Hev1, Ha.
        repeat split; [| exact Hkeys1 |].
        { exists (ReadJson (theme_file_of name) :: map RegisterTheme regs).
          rewrite <- app_assoc. split; [reflexivity |].
          reads_norm. split; [now constructor | cbn; lia]. }
        { intros e0 [= <-]. exact He. }
Qed.

(** With the application set, a call starts by asking for the theme's own
    file. *)
Lemma load_theme_first_read (n : nat) (name : string) (st : State) (a : App) :
  app st = Some a ->
  exists rest : list Event,
    events (load_theme (S n) name st).2
    = events st ++ ReadJson (theme_file_of name) :: rest.
Proof.
  intros Ha. rewrite load_theme_step, Ha. cbv zeta.
  destruct (try_effects (Py.basename name) (theme_file_of name) st)
    as [(_ & _ & (regs & Hev1) & _) Hfuel1].
  destruct (load_theme_try (Py.basename name) (theme_file_of name) st)
    as [[[]|e|] st1]; cbn [fst snd emit events] in *; [| | contradiction].
  - eexists. rewrite Hev1, <- app_assoc. reflexivity.
  - destruct (is_secure_or_os_error e);
      [| eexists; cbn [snd]; rewrite Hev1, <- app_assoc; reflexivity].
    destruct (String.eqb (Py.basename name) (theme_fallback_name settings)).
    { eexists. cbn [snd emit events]. rewrite Hev1, <- !app_assoc. reflexivity. }
    destruct (load_theme_effects n (theme_fallback_name settings)
                (emit (error_loading (Py.basename name) e) st1))
      as (_ & _ & (evs & Hevs & _) & _).
    destruct (load_theme n (theme_fallback_name settings)
                (emit (error_loading (Py.basename name) e) st1))
      as [[[]|e'|] st3]; cbn [fst snd emit events] in *;
      rewrite Hevs, Hev1, <- !app_assoc; eexists; cbn; reflexivity.
Qed.

(** The loop of [load_themes] inherits all of it. *)
Lemma load_entries_effects (fuel : nat) (files : list string) (st : State) :
  fs (for_each files (load_entry fuel) st).2 = fs st /\
  truthy (app (for_each files (load_entry fuel) st).2) = truthy (app st) /\
  (exists evs : list Event,
      events (for_each files (load_entry fuel) st).2 = events st ++ evs /\
      Forall (direct_child theme_folder) (reads evs)) /\
  (forall e : exn, (for_each files (load_entry fuel) st).1 = Raised e ->
                   is_secure_or_os_error e = false).
Proof.
  revert st. induction files as [|file files IH]; intros st.
  - cbn. repeat split; [| discriminate]. exists []. rewrite app_nil_r.
    split; [reflexivity | constructor].
  - cbn [for_each]. unfold bind.
    assert (fs (load_entry fuel file st).2 = fs st /\
            truthy (app (load_entry fuel file st).2) = truthy (app st) /\
            (exists evs : list Event,
                events (load_entry fuel file st).2 = events st ++ evs /\
                Forall (direct_child theme_folder) (reads evs)) /\
            (forall e : exn, (load_entry fuel file st).1 = Raised e ->
                             is_secure_or_os_error e = false))
      as (Hfs & Happ & (evs & Hevs & Hall) & Hexn).
    { unfold load_entry. destruct (Py.endswith (Py.lower file) ".json").
      - destruct (load_theme_effects fuel (theme_arg file) st)
          as (? & ? & (evs & ? & ? & _) & _ & ?). eauto 10.
      - cbn. repeat split; [| discriminate]. exists []. rewrite app_nil_r.
        split; [reflexivity | constructor]. }
    destruct (load_entry fuel file st) as [[[]|e|] st1]; cbn in *.
    + destruct (IH st1) as (Hfs' & Happ' & (evs' & Hevs' & Hall') & Hexn').
      rewrite Hfs', Happ', Hevs', Hfs, Happ, Hevs. repeat split; [| exact Hexn'].
      exists (evs ++ evs'). rewrite app_assoc. split; [reflexivity |].
      rewrite reads_app. now apply Forall_app.
    + repeat split; eauto.
    + repeat split; eauto.
Qed.

(** Keys, once registered, stay. *)
Lemma load_theme_keeps_keys (fuel : nat) (name : string) (st : State) (k : string) :
  In k (theme_keys st) -> In k (theme_keys (load_theme fuel name st).2).
Proof. apply load_theme_effects. Qed.

Lemma load_entries_keep_keys (fuel : nat) (files : list string) (st : State) (k : string) :
  In k (theme_keys st) -> In k (theme_keys (for_each files (load_entry fuel) st).2).
Proof.
  revert st. induction files as [|file files IH]; intros st Hk; [exact Hk |].
  cbn [for_each]. unfold bind.
  assert (In k (theme_keys (load_entry fuel file st).2)) as Hk1.
  { unfold load_entry. destruct (Py.endswith _ _); [| exact Hk].
    now apply load_theme_keeps_keys. }
  destruct (load_entry fuel file st) as [[[]|e|] st1]; [| exact Hk1..].
  now apply IH.
Qed.

Lemma load_entries_keep_events (fuel : nat) (files : list string) (st : State)
    (ev : Event) :
  In ev (events st) -> In ev (events (for_each files (load_entry fuel) st).2).
Proof.
  intros Hev.
  destruct (load_entries_effects fuel files st) as (_ & _ & (evs & -> & _) & _).
  apply in_or_app. now left.
Qed.

(** A definition with a mode whose attributes the constructor takes loads
    in one level. *)
Lemma load_theme_valid (n : nat) (name : string) (st : State) (a : App) (d : ThemeDef) :
  app st = Some a ->
  read_json_file secure_ops (fs st) (theme_file_of name) = inr d ->
  is_Some (d !! "dark") \/ is_Some (d !! "light") ->
  (forall (mode : string) (attrs : Attrs),
      In mode ThemeModes -> d !! mode = Some attrs -> theme_kwargs_error attrs = None) ->
  load_theme (S n) name st
  = (Returned tt,
     registered (Py.basename name) d a (emit (ReadJson (theme_file_of name)) st)).
Proof.
  intros Ha Hr Hmode Hok. rewrite load_theme_step, Ha. cbv zeta.
  now rewrite (try_valid _ _ _ _ _ Ha Hr Hmode Hok).
Qed.

(** A failed read, seen from [load_theme]. *)
Lemma load_theme_read_failed (n : nat) (name : string) (st : State) (a : App) (e : exn) :
  app st = Some a ->
  read_json_file secure_ops (fs st) (theme_file_of name) = inl e ->
  load_theme (S n) name st =
  let base := Py.basename name in
  let st1 := emit (ReadJson (theme_file_of name)) st in
  if is_secure_or_os_error e then
    let st2 := emit (error_loading base e) st1 in
    if String.eqb base (theme_fallback_name settings)
    then (Returned tt, st2)
    else match load_theme n (theme_fallback_name settings) st2 with
         | (Returned _, st3) => (Returned tt, st3)
         | (Raised _, st3) =>
             (Returned tt, emit (fallback_failed (theme_fallback_name settings)) st3)
         | (OutOfFuel, st3) => (OutOfFuel, st3)
         end
  else (Raised e, st1).
Proof.
  intros Ha Hr. rewrite load_theme_step, Ha. cbv zeta.
  now rewrite (try_read_failed _ _ _ _ Hr).
Qed.

(** A definition without a mode, seen from [load_theme]. *)
Lemma load_theme_no_mode (n : nat) (name : string) (st : State) (a : App) (d : ThemeDef) :
  app st = Some a ->
  read_json_file secure_ops (fs st) (theme_file_of name) = inr d ->
  d !! "dark" = None -> d !! "light" = None ->
  load_theme (S n) name st
  = (Raised (ThemeModeError (Py.basename name)),
     emit (ReadJson (theme_file_of name)) st).
Proof.
  intros Ha Hr Hd Hl. rewrite load_theme_step, Ha. cbv zeta.
  now rewrite (try_no_mode _ _ _ _ Hr Hd Hl).
Qed.

End Loader.

(** ** The depth of the fallback recursion *)

Section FallbackDepth.

Context `{Env}.

(** The configured fallback is a theme identity: a base name without a
    directory component. *)
Hypothesis fallback_is_base_name :
  Py.basename (theme_fallback_name settings) = theme_fallback_name settings.

(** Loading the fallback itself never recurses. *)
Lemma load_fallback_one_level (n : nat) (st : State) :
  load_theme (S n) (theme_fallback_name settings) st
  = load_theme 1 (theme_fallback_name settings) st /\
  (load_theme 1 (theme_fallback_name settings) st).1 <> OutOfFuel.
Proof.
  rewrite !load_theme_step. destruct (app st); [| split; [reflexivity | discriminate]].
  cbv zeta. rewrite fallback_is_base_name, String.eqb_refl.
  destruct (try_effects (theme_fallback_name settings)
              (theme_file_of (theme_fallback_name settings)) st) as [_ Hfuel].
  destruct (load_theme_try _ _ st) as [[[]|e|] st1];
    [split; [reflexivity | discriminate] | | now cbn in Hfuel].
  destruct (is_secure_or_os_error e); split; (reflexivity || discriminate).
Qed.

(** Two levels of call are all any load needs, and every load ends. *)
Lemma load_theme_two_levels (n : nat) (name : string) (st : State) :
  load_theme (S (S n)) name st = load_theme 2 name st /\
  (load_theme 2 name st).1 <> OutOfFuel.
Proof.
  rewrite (load_theme_step (S n)), (load_theme_step 1).
  destruct (app st); [| split; [reflexivity | discriminate]].
  cbv zeta.
  destruct (try_effects (Py.basename name) (theme_file_of name) st) as [_ Hfuel0].
  destruct (load_theme_try _ _ st) as [[[]|e|] st1];
    [split; [reflexivity | discriminate] | | now cbn in Hfuel0].
  destruct (is_secure_or_os_error e); [| split; [reflexivity | discriminate]].
  destruct (String.eqb _ _); [split; [reflexivity | discriminate] |].
  set (st2 := emit _ _).
  destruct (load_fallback_one_level n st2) as [-> Hfuel].
  destruct (load_theme 1 (theme_fallback_name settings) st2) as [[[]|e'|] st3];
    split; (reflexivity || discriminate || (exfalso; now apply Hfuel)).
Qed.

(** An accessor or storage error is absorbed: logged, then the fallback
    when the theme is not the fallback, and a normal return. *)
Lemma load_theme_recovers (n : nat) (name : string) (st : State) (a : App) (e : exn) :
  app st = Some a ->
  read_json_file secure_ops (fs st) (theme_file_of name) = inl e ->
  is_secure_or_os_error e = true ->
  exists (st' : State) (rest : list Event),
    load_theme (S (S n)) name st = (Returned tt, st') /\
    events st' = events st ++ ReadJson (theme_file_of name)
                             :: error_loading (Py.basename name) e :: rest /\
    (Py.basename name = theme_fallback_name settings -> rest = []) /\
    (Py.basename name <> theme_fallback_name settings ->
     exists rest' : list Event,
       rest = ReadJson (theme_file_of (theme_fallback_name settings)) :: rest').
Proof.
  intros Ha Hr He.
  destruct (load_theme_two_levels n name st) as [-> _].
  rewrite (load_theme_read_failed _ _ _ _ _ Ha Hr). cbv zeta. rewrite He.
  destruct (String.eqb_spec (Py.basename name) (theme_fallback_name settings))
    as [Heq|Hne].
  - eexists; exists []. split; [reflexivity |]. cbn. rewrite <- app_assoc.
    split; [reflexivity |]. split; [reflexivity | contradiction].
  - set (st2 := emit _ _).
    destruct (load_theme_first_read 0 (theme_fallback_name settings) st2 a Ha)
      as [rest Hrest].
    destruct (load_fallback_one_level 0 st2) as [_ Hfuel].
    destruct (load_theme 1 (theme_fallback_name settings) st2) as [[[]|e'|] st3];
      cbn in Hrest, Hfuel; [| | contradiction].
    + exists st3, (ReadJson (theme_file_of (theme_fallback_name settings)) :: rest).
      split; [reflexivity |]. rewrite Hrest. cbn. rewrite <- !app_assoc.
      split; [reflexivity |]. split; [contradiction | eauto].
    + eexists. exists (ReadJson (theme_file_of (theme_fallback_name settings))
                        :: rest ++ [fallback_failed (theme_fallback_name settings)]).
      split; [reflexivity |]. cbn. rewrite Hrest. cbn. rewrite <- !app_assoc.
      split; [reflexivity |]. split; [contradiction | eauto].
Qed.

(** One directory entry whose file either holds a definition with a mode
    or fails in the accessor. *)
Lemma load_entry_recoverable (n : nat) (file : string) (st : State) :
  truthy (app st) = true ->
  (Py.endswith (Py.lower file) ".json" = true ->
   (exists d : ThemeDef,
       read_json_file secure_ops (fs st) (theme_file_of (theme_arg file)) = inr d /\
       (is_Some (d !! "dark") \/ is_Some (d !! "light")) /\
         (forall (mode : string) (attrs : Attrs),
             In mode ThemeModes -> d !! mode = Some attrs ->
             theme_kwargs_error attrs = None)) \/
   (exists e : exn,
       read_json_file secure_ops (fs st) (theme_file_of (theme_arg file)) = inl e /\
       is_secure_or_os_error e = true)) ->
  exists st1 : State,
    load_entry (S (S n)) file st = (Returned tt, st1) /\
    fs st1 = fs st /\ truthy (app st1) = true /\
    (Py.endswith (Py.lower file) ".json" = true ->
     In (ReadJson (theme_file_of (theme_arg file))) (events st1) /\
     forall (d : ThemeDef) (mode : string) (attrs : Attrs),
       read_json_file secure_ops (fs st) (theme_file_of (theme_arg file)) = inr d ->
       In mode ThemeModes -> d !! mode = Some attrs ->
       In (RegisterTheme (mkTheme (Py.basename (theme_arg file) +:+ "_" +:+ mode) attrs))
          (events st1) /\
       In (Py.basename (theme_arg file) +:+ "_" +:+ mode) (theme_keys st1)).
Proof.
  intros Happ Hfile. unfold load_entry.
  destruct (Py.endswith (Py.lower file) ".json").
  2:{ exists st. repeat split; auto; discriminate. }
  destruct (app st) as [a|] eqn:Ha; [| discriminate].
  destruct (Hfile eq_refl) as [(d & Hr & Hmode & Hok)|(e & Hr & He)].
  - rewrite (load_theme_valid _ _ _ _ _ Ha Hr Hmode Hok).
    eexists. split; [reflexivity |]. split; [reflexivity |]. split; [reflexivity |].
    intros _. cbn [registered emit events app fs]. split.
    + apply in_or_app. left. apply in_or_app. right. now left.
    + intros d' mode attrs Hd' Hm Hd. rewrite Hr in Hd'. injection Hd' as <-.
      split.
      * apply in_or_app. right. apply in_map. now apply themes_in_mode.
      * unfold theme_keys. cbn [app].
        apply (register_all_adds _ _ (mkTheme _ attrs)). now apply themes_in_mode.
  - destruct (load_theme_recovers n _ _ _ _ Ha Hr He) as (st1 & rest & Hrun & Hev & _).
    destruct (load_theme_effects (S (S n)) (theme_arg file) st) as (Hfs & Htr & _).
    rewrite Hrun in Hfs, Htr. cbn in Hfs, Htr.
    exists st1. split; [exact Hrun |]. split; [exact Hfs |].
    split; [rewrite Htr, Ha; reflexivity |].
    intros _. split.
    + rewrite Hev. apply in_or_app. right. now left.
    + intros d' mode attrs Hd. congruence.
Qed.

(** The loop of [load_themes] over such entries: it goes through all of
    them and returns. *)
Lemma load_entries_recoverable (n : nat) (files : list string) (f : FileSystem) :
  (forall file : string, In file files ->
     Py.endswith (Py.lower file) ".json" = true ->
     (exists d : ThemeDef,
         read_json_file secure_ops f (theme_file_of (theme_arg file)) = inr d /\
         (is_Some (d !! "dark") \/ is_Some (d !! "light")) /\
         (forall (mode : string) (attrs : Attrs),
             In mode ThemeModes -> d !! mode = Some attrs ->
             theme_kwargs_error attrs = None)) \/
     (exists e : exn,
         read_json_file secure_ops f (theme_file_of (theme_arg file)) = inl e /\
         is_secure_or_os_error e = true)) ->
  forall st : State, fs st = f -> truthy (app st) = true ->
  exists st' : State,
    for_each files (load_entry (S (S n))) st = (Returned tt, st') /\
    (forall file : string, In file files ->
       Py.endswith (Py.lower file) ".json" = true ->
       In (ReadJson (theme_file_of (theme_arg file))) (events st') /\
       forall (d : ThemeDef) (mode : string) (attrs : Attrs),
         read_json_file secure_ops f (theme_file_of (theme_arg file)) = inr d ->
         In mode ThemeModes -> d !! mode = Some attrs ->
         In (RegisterTheme (mkTheme (Py.basename (theme_arg file) +:+ "_" +:+ mode) attrs))
            (events st') /\
         In (Py.basename (theme_arg file) +:+ "_" +:+ mode) (theme_keys st')).
Proof.
  induction files as [|file files IH]; intros Hall st Hfs Happ.
  - exists st. split; [reflexivity | contradiction].
  - destruct (load_entry_recoverable n file st Happ) as (st1 & Hrun & Hfs1 & Happ1 & Hhead).
    { rewrite Hfs. apply Hall. now left. }
    destruct (IH (fun x Hx => Hall x (or_intror Hx)) st1) as (st' & Hrest & Htail);
      [congruence | exact Happ1 |].
    exists st'. cbn [for_each]. unfold bind. rewrite Hrun. split; [exact Hrest |].
    intros x [<-|Hx] Hjson; [| now apply Htail].
    destruct (Hhead Hjson) as [Hread Hreg].
    assert (st' = (for_each files (load_entry (S (S n))) st1).2) as Hst'
        by now rewrite Hrest.
    split.
    + rewrite Hst'. now apply load_entries_keep_events.
    + intros d mode attrs Hd Hm Hattrs. rewrite <- Hfs in Hd.
      destruct (Hreg d mode attrs Hd Hm Hattrs) as [Hev Hkey].
      rewrite Hst'. split;
        [now apply load_entries_keep_events | now apply load_entries_keep_keys].
Qed.

End FallbackDepth.

(** ** The file system operations and the default theme *)

Lemma path_exists_insert (p q : Path) (x : Node) (f : FileSystem) :
  path_exists q (<[p := x]> f) = if decide (p = q) then true else path_exists q f.
Proof.
  unfold path_exists. rewrite lookup_insert.
  destruct (decide (p = q)); reflexivity.
Qed.

Lemma path_exists_add_entry (dir q : Path) (c : string) (f : FileSystem) :
  path_exists q (add_entry dir c f) = path_exists q f.
Proof.
  unfold add_entry. destruct (f !! dir) as [[es|x]|] eqn:Hd; try reflexivity.
  destruct (bool_decide (c ∈ es)); [reflexivity |].
  rewrite path_exists_insert. destruct (decide (dir = q)) as [<-|]; [| reflexivity].
  unfold path_exists. now rewrite Hd.
Qed.

Lemma mkdir_exist_ok_effects (p : Path) (st st' : State) :
  mkdir_exist_ok p st = (Returned tt, st') ->
  app st' = app st /\ events st' = events st /\
  path_exists p (fs st') = true /\
  (forall q : Path, path_exists q (fs st) = true -> path_exists q (fs st') = true).
Proof.
  unfold mkdir_exist_ok. destruct (fs st !! p) as [[es|x]|] eqn:Hp; intros [= <-].
  - repeat split; [| auto]. unfold path_exists. now rewrite Hp.
  - cbn. repeat split.
    + rewrite path_exists_insert. now destruct (decide (p = p)).
    + intros q Hq. rewrite path_exists_insert, path_exists_add_entry, Hq.
      now destruct (decide (p = q)).
Qed.

Lemma mkdir_each_effects (ps : list Path) (st st' : State) :
  for_each ps mkdir_exist_ok st = (Returned tt, st') ->
  app st' = app st /\ events st' = events st /\
  (forall q : Path, In q ps -> path_exists q (fs st') = true) /\
  (forall q : Path, path_exists q (fs st) = true -> path_exists q (fs st') = true).
Proof.
  revert st. induction ps as [|p ps IH]; intros st.
  - cbn. intros [= <-]. repeat split; [contradiction | auto].
  - cbn [for_each]. unfold bind.
    destruct (mkdir_exist_ok p st) as [[[]|e|] st1] eqn:Hp; [| discriminate..].
    intros Hrest.
    destruct (mkdir_exist_ok_effects p st st1 Hp) as (Ha & He & Hex & Hmono).
    destruct (IH st1 Hrest) as (Ha' & He' & Hex' & Hmono').
    repeat split; [congruence | congruence | | auto].
    intros q [<-|Hq]; auto.
Qed.

Lemma prefixes_self (p : Path) : p <> [] -> In p (prefixes p).
Proof.
  intros Hp. unfold prefixes. apply in_map_iff. exists (length p).
  split; [apply firstn_all |]. apply in_seq.
  destruct p; [contradiction | cbn; lia].
Qed.

Lemma write_file_effects (dst : Path) (c : FileContent) (st st' : State) :
  write_file dst c st = (Returned tt, st') ->
  app st' = app st /\ events st' = events st /\
  path_exists dst (fs st') = true /\
  (forall q : Path, path_exists q (fs st) = true -> path_exists q (fs st') = true).
Proof.
  unfold write_file. destruct (fs st !! Py.parent dst) as [[es|x]|]; intros [= <-].
  cbn. repeat split.
  - rewrite path_exists_insert. now destruct (decide (dst = dst)).
  - intros q Hq. rewrite path_exists_insert, path_exists_add_entry, Hq.
    now destruct (decide (dst = q)).
Qed.

Lemma shutil_copy_effects (src dst : Path) (st st' : State) :
  path_exists dst (fs st) = false ->
  shutil_copy src dst st = (Returned tt, st') ->
  app st' = app st /\ events st' = events st /\
  path_exists dst (fs st') = true /\
  (forall q : Path, path_exists q (fs st) = true -> path_exists q (fs st') = true).
Proof.
  unfold shutil_copy, path_exists at 1. intros Hdst.
  destruct (fs st !! src) as [[es|c]|]; [discriminate | | discriminate].
  destruct (fs st !! dst) as [x|]; [discriminate |]. apply write_file_effects.
Qed.

Section DefaultTheme.

Context `{Env}.

Lemma theme_folder_nonempty : theme_folder <> [].
Proof. rewrite theme_folder_eq. now destruct (data_dir settings). Qed.

(** With the folder and the file in place, the call changes nothing. *)
Lemma ensure_default_theme_present (st : State) :
  path_exists theme_folder (fs st) = true ->
  path_exists (theme_folder / "par.json")%path (fs st) = true ->
  ensure_default_theme st = (Returned tt, st).
Proof.
  intros Hdir Hfile. unfold ensure_default_theme, bind, gets.
  rewrite Hdir. cbn [negb]. unfold ret at 1. now rewrite Hfile.
Qed.

(** A call that returns leaves the folder and the file in place, and
    touches nothing but the disk. *)
Lemma ensure_default_theme_returns (st st' : State) :
  ensure_default_theme st = (Returned tt, st') ->
  app st' = app st /\ events st' = events st /\
  path_exists theme_folder (fs st') = true /\
  path_exists (theme_folder / "par.json")%path (fs st') = true.
Proof.
  unfold ensure_default_theme, bind, gets.
  destruct (path_exists theme_folder (fs st)) eqn:Hdir; cbn [negb].
  - unfold ret at 1.
    destruct (path_exists (theme_folder / "par.json")%path (fs st)) eqn:Hfile;
      cbn [negb].
    + intros [= <-]. auto.
    + intros Hcopy.
      destruct (shutil_copy_effects _ _ _ _ Hfile Hcopy) as (? & ? & ? & Hmono).
      auto.
  - destruct (mkdir_parents theme_folder st) as [[[]|e|] st1] eqn:Hmk;
      [| discriminate..].
    destruct (mkdir_each_effects _ _ _ Hmk) as (Ha & He & Hex & _).
    specialize (Hex theme_folder (prefixes_self _ theme_folder_nonempty)).
    destruct (path_exists (theme_folder / "par.json")%path (fs st1)) eqn:Hfile;
      cbn [negb].
    + intros [= <-]. auto.
    + intros Hcopy.
      destruct (shutil_copy_effects _ _ _ _ Hfile Hcopy) as (Ha' & He' & ? & Hmono).
      repeat split; [congruence | congruence | auto | auto].
Qed.

Lemma ensure_default_theme_effects (st : State) :
  app (ensure_default_theme st).2 = app st /\
  events (ensure_default_theme st).2 = events st.
Proof.
  assert (forall (ps : list Path) (s : State),
             app (for_each ps mkdir_exist_ok s).2 = app s /\
             events (for_each ps mkdir_exist_ok s).2 = events s) as Hmk.
  { induction ps as [|p ps IH]; intros s; [now cbn |].
    cbn [for_each]. unfold bind.
    assert (app (mkdir_exist_ok p s).2 = app s /\
            events (mkdir_exist_ok p s).2 = events s) as [Ha He].
    { unfold mkdir_exist_ok. now destruct (fs s !! p) as [[?|?]|]. }
    destruct (mkdir_exist_ok p s) as [[[]|e|] s1]; cbn in *; auto.
    destruct (IH s1) as [-> ->]. auto. }
  assert (forall (dst : Path) (c : FileContent) (s : State),
             app (write_file dst c s).2 = app s /\
             events (write_file dst c s).2 = events s) as Hwr.
  { intros dst c s. unfold write_file.
    now destruct (fs s !! Py.parent dst) as [[?|?]|]. }
  assert (forall (src dst : Path) (s : State),
             app (shutil_copy src dst s).2 = app s /\
             events (shutil_copy src dst s).2 = events s) as Hcp.
  { intros src dst s. unfold shutil_copy.
    destruct (fs s !! src) as [[?|c]|]; [now cbn | | now cbn].
    destruct (fs s !! dst) as [[?|?]|]; apply Hwr. }
  unfold ensure_default_theme, bind, gets.
  destruct (negb (path_exists theme_folder (fs st))).
  - destruct (Hmk (prefixes theme_folder) st) as [Ha He].
    unfold mkdir_parents.
    destruct (for_each (prefixes theme_folder) mkdir_exist_ok st) as [[[]|e|] s1];
      cbn [fst snd] in *; auto.
    rewrite <- Ha, <- He.
    destruct (negb (path_exists _ (fs s1))); [| now cbn].
    apply Hcp.
  - change (ret tt st) with (Returned tt, st). cbn beta iota.
    destruct (negb (path_exists _ (fs st))); [apply Hcp | split; reflexivity].
Qed.

(** C6: [ensure_default_theme] is idempotent. After a call that returned,
    the theme folder and its [par.json] exist, and calling again returns
    normally with the state (the disk included) exactly as it was; in any
    state where both already exist the call changes nothing and raises
    nothing, so an existing [par.json] is never overwritten. *)
Theorem ensure_default_theme_idempotent (st : State) :
  (ensure_default_theme st).1 = Returned tt ->
  let st1 := (ensure_default_theme st).2 in
  path_exists theme_folder (fs st1) = true /\
  path_exists (theme_folder / "par.json")%path (fs st1) = true /\
  ensure_default_theme st1 = (Returned tt, st1) /\
  (forall st2 : State,
      path_exists theme_folder (fs st2) = true ->
      path_exists (theme_folder / "par.json")%path (fs st2) = true ->
      ensure_default_theme st2 = (Returned tt, st2)).
Proof.
  intros Hret st1.
  assert (ensure_default_theme st = (Returned tt, st1)) as Hrun.
  { unfold st1. destruct (ensure_default_theme st) as [o s]. cbn in *. now subst. }
  destruct (ensure_default_theme_returns _ _ Hrun) as (_ & _ & Hdir & Hfile).
  split; [exact Hdir |]. split; [exact Hfile |].
  split; [now apply ensure_default_theme_present |].
  intros st2. apply ensure_default_theme_present.
Qed.

End DefaultTheme.

(** ** The loader *)

Section LoaderProperties.

Context `{Env}.

(** C9: [load_theme] needs the application: when [self.app] is unset it
    raises "App is not initialized" at once, for every name, and leaves
    the state as it found it (no read, no log, no fallback). *)
Theorem load_theme_requires_app (n : nat) (name : string) (st : State) :
  app st = None ->
  load_theme (S n) name st = (Raised (Exception "App is not initialized"), st).
Proof. intros Ha. rewrite load_theme_step, Ha. reflexivity. Qed.

(** A directory entry [<stem>.json] sends [load_theme] back to that very
    file. *)
Lemma entry_resolves_to_itself (stem : string) :
  Py.has_char "/" stem = false -> only_dots stem = false ->
  Py.basename (theme_arg (stem +:+ ".json")) = stem /\
  theme_file_of (theme_arg (stem +:+ ".json")) = theme_folder ++ [stem +:+ ".json"].
Proof.
  intros Hs Hd.
  assert (Py.basename (theme_arg (stem +:+ ".json")) = stem) as Hb.
  { unfold theme_arg. rewrite basename_join, (splitext_root_json stem Hs Hd).
    now apply basename_id. }
  split; [exact Hb |]. now rewrite theme_file_of_eq, Hb.
Qed.

Lemma load_themes_step (fuel : nat) (st st1 : State) (files : list string) :
  ensure_default_theme st = (Returned tt, st1) ->
  fs st1 !! theme_folder = Some (Dir files) ->
  load_themes fuel st = for_each files (load_entry fuel) st1.
Proof.
  intros Hens Hdir. unfold load_themes, bind at 1. rewrite Hens.
  unfold bind at 1, os_listdir. now rewrite Hdir.
Qed.

(** C1, as the code has it: a definition that parses but has neither
    ["dark"] nor ["light"] makes [load_theme] raise [ThemeModeError] with
    the base name, after the one read and before any registration or log,
    and the exception reaches the caller; [load_themes] passes it on to
    its own caller when the first listed entry is such a file. *)
Theorem load_theme_mode_error_propagates
    (n : nat) (name : string) (st : State) (a : App) (d : ThemeDef) :
  app st = Some a ->
  read_json_file secure_ops (fs st) (theme_file_of name) = inr d ->
  d !! "dark" = None -> d !! "light" = None ->
  load_theme (S n) name st
  = (Raised (ThemeModeError (Py.basename name)),
     emit (ReadJson (theme_file_of name)) st) /\
  (forall (st0 : State) (file : string) (rest : list string),
      ensure_default_theme st0 = (Returned tt, st) ->
      fs st !! theme_folder = Some (Dir (file :: rest)) ->
      Py.endswith (Py.lower file) ".json" = true ->
      name = theme_arg file ->
      load_themes (S n) st0
      = (Raised (ThemeModeError (Py.basename name)),
         emit (ReadJson (theme_file_of name)) st)).
Proof.
  intros Ha Hr Hd Hl.
  assert (load_theme (S n) name st
          = (Raised (ThemeModeError (Py.basename name)),
             emit (ReadJson (theme_file_of name)) st)) as Hrun.
  { now apply (load_theme_no_mode n name st a d). }
  split; [exact Hrun |].
  intros st0 file rest Hens Hdir Hjson ->.
  rewrite (load_themes_step _ _ _ _ Hens Hdir).
  cbn [for_each]. unfold bind, load_entry. now rewrite Hjson, Hrun.
Qed.

(** C2, as the code has it: for a definition with at least one of the two
    modes, each an attribute mapping the runtime's constructor takes,
    [load_theme] returns normally having registered exactly one theme per
    present mode, named
    [<base>_<mode>] and carrying that mode's attributes, ["dark"] before
    ["light"]; a missing mode never costs the other its theme. *)
Theorem load_theme_registers_present_modes
    (n : nat) (name : string) (st : State) (a : App) (d : ThemeDef) :
  app st = Some a ->
  read_json_file secure_ops (fs st) (theme_file_of name) = inr d ->
  is_Some (d !! "dark") \/ is_Some (d !! "light") ->
  (forall (mode : string) (attrs : Attrs),
      In mode ThemeModes -> d !! mode = Some attrs -> theme_kwargs_error attrs = None) ->
  let base := Py.basename name in
  let themes :=
    match d !! "dark", d !! "light" with
    | Some ad, Some al => [mkTheme (base +:+ "_dark") ad; mkTheme (base +:+ "_light") al]
    | Some ad, None => [mkTheme (base +:+ "_dark") ad]
    | None, Some al => [mkTheme (base +:+ "_light") al]
    | None, None => []
    end in
  exists st' : State,
    load_theme (S n) name st = (Returned tt, st') /\
    events st' = events st ++ ReadJson (theme_file_of name) :: map RegisterTheme themes /\
    app st' = Some (mkApp (register_all themes (available_themes a)) (theme a)) /\
    fs st' = fs st.
Proof.
  intros Ha Hr Hmode Hok base themes.
  rewrite (load_theme_valid n name st a d Ha Hr Hmode Hok).
  assert (themes = themes_in base d) as ->.
  { unfold themes, themes_in, ThemeModes. cbn [omap list_omap].
    destruct (d !! "dark"), (d !! "light"); reflexivity. }
  eexists. split; [reflexivity |]. cbn. rewrite <- app_assoc. auto.
Qed.


(** C4, as the code has it: with a fallback name that is a base name, the
    recursion through the fallback is one level deep. Two levels of call
    are all a load ever uses, and it ends; it asks the accessor at
    most twice; a theme that is the fallback makes no recursive call; and
    when the theme and the fallback both fail to load, the call reads
    twice, logs both failures and returns normally. *)
Theorem fallback_recursion_depth_one (n : nat) (name : string) (st : State) :
  Py.basename (theme_fallback_name settings) = theme_fallback_name settings ->
  load_theme (S (S n)) name st = load_theme 2 name st /\
  (load_theme 2 name st).1 <> OutOfFuel /\
  (exists evs : list Event,
      events (load_theme 2 name st).2 = events st ++ evs /\ length (reads evs) <= 2) /\
  (Py.basename name = theme_fallback_name settings ->
   load_theme (S n) name st = load_theme 1 name st /\
   (load_theme 1 name st).1 <> OutOfFuel) /\
  (forall (a : App) (e1 e2 : exn),
      app st = Some a ->
      Py.basename name <> theme_fallback_name settings ->
      read_json_file secure_ops (fs st) (theme_file_of name) = inl e1 ->
      is_secure_or_os_error e1 = true ->
      read_json_file secure_ops (fs st) (theme_file_of (theme_fallback_name settings))
      = inl e2 ->
      is_secure_or_os_error e2 = true ->
      load_theme (S (S n)) name st
      = (Returned tt,
         mkState (app st) (fs st)
           (events st ++
            [ReadJson (theme_file_of name);
             error_loading (Py.basename name) e1;
             ReadJson (theme_file_of (theme_fallback_name settings));
             error_loading (theme_fallback_name settings) e2]))).
Proof.
  intros Hbase.
  destruct (load_theme_two_levels Hbase n name st) as [Htwo Hends].
  split; [exact Htwo |]. split; [exact Hends |]. split; [| split].
  - destruct (load_theme_effects 2 name st) as (_ & _ & (evs & Hevs & _ & Hlen) & _).
    eauto.
  - intros Heq. rewrite !load_theme_step. destruct (app st);
      [| split; [reflexivity | discriminate]].
    cbv zeta. rewrite Heq, String.eqb_refl.
    destruct (try_effects (theme_fallback_name settings) (theme_file_of name) st)
      as [_ Hfuel].
    destruct (load_theme_try _ _ st) as [[[]|e|] st1];
      [split; [reflexivity | discriminate] | | now cbn in Hfuel].
    destruct (is_secure_or_os_error e); split; (reflexivity || discriminate).
  - intros a e1 e2 Ha Hne Hr1 He1 Hr2 He2.
    rewrite (load_theme_read_failed _ _ _ _ _ Ha Hr1). cbv zeta. rewrite He1.
    apply String.eqb_neq in Hne. rewrite Hne.
    rewrite (load_theme_read_failed n _ (emit _ (emit _ st)) a e2 Ha Hr2). cbv zeta.
    rewrite He2, Hbase, String.eqb_refl.
    unfold emit. cbn [app fs events]. rewrite ?Ha, <- !app_assoc. reflexivity.
Qed.

(** C5: whatever the name, and however the call ends, every read
    [load_theme] makes is of a file directly inside the theme folder; with
    the application set the first one is [<theme_folder>/<basename>.json],
    where the base name has no directory component left. *)
Theorem load_theme_stays_in_theme_folder (fuel : nat) (name : string) (st : State) :
  exists evs : list Event,
    events (load_theme fuel name st).2 = events st ++ evs /\
    Forall (direct_child theme_folder) (reads evs) /\
    (forall (a : App) (n : nat), app st = Some a -> fuel = S n ->
       exists rest : list Event,
         evs = ReadJson (theme_folder ++ [Py.basename name +:+ ".json"]) :: rest) /\
    Py.has_char "/" (Py.basename name) = false.
Proof.
  destruct (load_theme_effects fuel name st) as (_ & _ & (evs & Hevs & Hall & _) & _).
  exists evs. split; [exact Hevs |]. split; [exact Hall |].
  split; [| apply basename_no_slash].
  intros a n Ha ->. destruct (load_theme_first_read n name st a Ha) as [rest Hrest].
  rewrite Hevs in Hrest. apply app_inv_head in Hrest.
  exists rest. now rewrite <- theme_file_of_eq.
Qed.

(** C10: once the handler has turned to the fallback, nothing gets out of
    that branch. Whatever exception [load_theme] of the fallback raises is
    caught and logged and the outer call returns normally; so it is for
    the [ThemeModeError] of a fallback definition that has neither mode. *)
Theorem fallback_branch_catches_everything
    (n : nat) (name : string) (st : State) (a : App) (e : exn) :
  app st = Some a ->
  read_json_file secure_ops (fs st) (theme_file_of name) = inl e ->
  is_secure_or_os_error e = true ->
  Py.basename name <> theme_fallback_name settings ->
  let fallback := theme_fallback_name settings in
  let st2 := emit (error_loading (Py.basename name) e)
                  (emit (ReadJson (theme_file_of name)) st) in
  (forall (e' : exn) (st3 : State),
      load_theme n fallback st2 = (Raised e', st3) ->
      load_theme (S n) name st = (Returned tt, emit (fallback_failed fallback) st3)) /\
  (forall e' : exn, (load_theme (S n) name st).1 <> Raised e') /\
  (forall d : ThemeDef,
      read_json_file secure_ops (fs st) (theme_file_of fallback) = inr d ->
      d !! "dark" = None -> d !! "light" = None ->
      load_theme (S n) fallback st2
      = (Raised (ThemeModeError (Py.basename fallback)),
         emit (ReadJson (theme_file_of fallback)) st2) /\
      load_theme (S (S n)) name st
      = (Returned tt,
         mkState (app st) (fs st)
           (events st ++
            [ReadJson (theme_file_of name);
             error_loading (Py.basename name) e;
             ReadJson (theme_file_of fallback);
             fallback_failed fallback]))).
Proof.
  intros Ha Hr He Hne fallback st2.
  apply String.eqb_neq in Hne.
  assert (forall m : nat,
             load_theme (S m) name st =
             match load_theme m fallback st2 with
             | (Returned _, st3) => (Returned tt, st3)
             | (Raised _, st3) => (Returned tt, emit (fallback_failed fallback) st3)
             | (OutOfFuel, st3) => (OutOfFuel, st3)
             end) as Hstep.
  { intros m. rewrite (load_theme_read_failed _ _ _ _ _ Ha Hr). cbv zeta.
    now rewrite He, Hne. }
  assert (forall d : ThemeDef,
             read_json_file secure_ops (fs st) (theme_file_of fallback) = inr d ->
             d !! "dark" = None -> d !! "light" = None ->
             load_theme (S n) fallback st2
             = (Raised (ThemeModeError (Py.basename fallback)),
                emit (ReadJson (theme_file_of fallback)) st2)) as Hinner.
  { intros d Hd Hdark Hlight.
    now apply (load_theme_no_mode n fallback st2 a d). }
  split; [| split].
  - intros e' st3 Hin. now rewrite Hstep, Hin.
  - intros e'. rewrite Hstep.
    destruct (load_theme n fallback st2) as [[[]|e0|] st3]; discriminate.
  - intros d Hd Hdark Hlight. split; [exact (Hinner d Hd Hdark Hlight) |].
    rewrite Hstep, (Hinner d Hd Hdark Hlight).
    unfold st2, emit. cbn [app fs events]. rewrite ?Ha, <- !app_assoc. reflexivity.
Qed.

(** C7, as the code has it: a theme file that cannot be read or parsed
    does not stop the batch. Take the application set, the default theme in
    place, a fallback name that is a base name, and a theme folder where,
    for every [.json] entry, the file [load_theme] derives from the entry,
    [theme_file_of (theme_arg entry)], either holds a definition with a mode
    whose attributes the constructor takes, or fails in the accessor or the
    storage. Then [load_themes] returns normally, has asked for the derived
    file of every such entry, the failing ones included, and has registered
    a theme named [<base>_<mode>] for every mode of every derived file that
    holds a definition. The derived file is the entry's own whenever the
    entry is [<stem>.json], lower-case, with a stem that has no slash and is
    not made of dots only; the base name is then the stem. (A file that
    parses but has no mode is another matter: see C1.) *)
Theorem load_themes_absorbs_bad_files
    (n : nat) (st : State) (a : App) (files : list string) :
  Py.basename (theme_fallback_name settings) = theme_fallback_name settings ->
  app st = Some a ->
  (ensure_default_theme st).1 = Returned tt ->
  let disk := fs (ensure_default_theme st).2 in
  disk !! theme_folder = Some (Dir files) ->
  (forall file : string, In file files ->
     Py.endswith (Py.lower file) ".json" = true ->
     (exists d : ThemeDef,
         read_json_file secure_ops disk (theme_file_of (theme_arg file)) = inr d /\
         (is_Some (d !! "dark") \/ is_Some (d !! "light")) /\
         (forall (mode : string) (attrs : Attrs),
             In mode ThemeModes -> d !! mode = Some attrs ->
             theme_kwargs_error attrs = None)) \/
     (exists e : exn,
         read_json_file secure_ops disk (theme_file_of (theme_arg file)) = inl e /\
         is_secure_or_os_error e = true)) ->
  exists st' : State,
    load_themes (S (S n)) st = (Returned tt, st') /\
    (forall file : string, In file files ->
       Py.endswith (Py.lower file) ".json" = true ->
       In (ReadJson (theme_file_of (theme_arg file))) (events st') /\
       forall (d : ThemeDef) (mode : string) (attrs : Attrs),
         read_json_file secure_ops disk (theme_file_of (theme_arg file)) = inr d ->
         In mode ThemeModes -> d !! mode = Some attrs ->
         In (RegisterTheme (mkTheme (Py.basename (theme_arg file) +:+ "_" +:+ mode) attrs))
            (events st') /\
         In (Py.basename (theme_arg file) +:+ "_" +:+ mode) (theme_keys st')) /\
    (forall stem : string,
       Py.has_char "/" stem = false -> only_dots stem = false ->
       Py.basename (theme_arg (stem +:+ ".json")) = stem /\
       theme_file_of (theme_arg (stem +:+ ".json")) = theme_folder ++ [stem +:+ ".json"]).
Proof.
  intros Hbase Ha Hret disk Hdir Hfiles.
  destruct (ensure_default_theme st) as [o st1] eqn:Hens. cbn in Hret. subst o.
  destruct (ensure_default_theme_returns _ _ Hens) as (Happ1 & _).
  cbn [snd] in disk.
  destruct (load_entries_recoverable Hbase n files disk Hfiles st1 eq_refl)
    as (st' & Hrun & Hall).
  { now rewrite Happ1, Ha. }
  exists st'. split; [| split; [exact Hall | exact entry_resolves_to_itself]].
  now rewrite (load_themes_step _ _ _ _ Hens Hdir).
Qed.

End LoaderProperties.

(** ** The registry facade *)

(** C8: without a runtime, [get_theme], [list_themes],
    [theme_select_options] and [change_theme] all raise "App is not
    initialized" to their caller and change nothing; with a runtime,
    [theme_select_options] returns one pair per key of [list_themes], in
    the same order, label and value both the key. *)
Theorem facade_requires_runtime (st : State) (name : string) :
  app st = None ->
  get_theme name st = (Raised (Exception "App is not initialized"), st) /\
  list_themes st = (Raised (Exception "App is not initialized"), st) /\
  theme_select_options st = (Raised (Exception "App is not initialized"), st) /\
  change_theme name st = (Raised (Exception "App is not initialized"), st) /\
  (forall (st0 : State) (a : App),
      app st0 = Some a ->
      list_themes st0 = (Returned (map fst (available_themes a)), st0) /\
      theme_select_options st0
      = (Returned (map (fun k => (k, k)) (map fst (available_themes a))), st0)).
Proof.
  intros Ha.
  unfold get_theme, list_themes, theme_select_options, change_theme, list_themes,
    bind, gets.
  rewrite Ha. repeat split; try reflexivity.
  all: intros; unfold list_themes; now rewrite H.
Qed.

(** ** The operations at work on the sample installation *)

Example basename_strips_directories : Py.basename "../../etc/passwd" = "passwd".
Proof. reflexivity. Qed.

Example splitext_plain : Py.splitext_root "par.json" = "par".
Proof. reflexivity. Qed.

Example splitext_hidden : Py.splitext_root ".json" = ".json".
Proof. reflexivity. Qed.

Example endswith_any_case : Py.endswith (Py.lower "Solarized.JSON") ".json" = true.
Proof. reflexivity. Qed.

Example joinpath_absolute : (["/"; "d"] / "/etc/./x")%path = ["/"; "etc"; "x"].
Proof. reflexivity. Qed.

Example injected_name_resolves_inside :
  @theme_file_of sample_env "../../etc/passwd" = ["/"; "d"; "themes"; "passwd.json"].
Proof. vm_compute. reflexivity. Qed.

Lemma sample_fallback_is_base_name :
  Py.basename (theme_fallback_name (@settings sample_env))
  = theme_fallback_name (@settings sample_env).
Proof. reflexivity. Qed.

(** The sample data, looked up once. *)
Lemma light_only_modes :
  light_only !! "dark" = None /\ light_only !! "light" = Some light_attrs.
Proof. split; vm_compute; reflexivity. Qed.

Lemma both_modes_modes :
  both_modes !! "dark" = Some dark_attrs /\ both_modes !! "light" = Some light_attrs.
Proof. split; vm_compute; reflexivity. Qed.

Lemma no_mode_modes : no_mode !! "dark" = None /\ no_mode !! "light" = None.
Proof. split; vm_compute; reflexivity. Qed.

Lemma sample_attrs_accepted :
  sample_kwargs_error dark_attrs = None /\ sample_kwargs_error light_attrs = None.
Proof. split; vm_compute; reflexivity. Qed.

Lemma light_only_accepted (mode : string) (attrs : Attrs) :
  In mode ThemeModes -> light_only !! mode = Some attrs ->
  sample_kwargs_error attrs = None.
Proof.
  destruct light_only_modes as [Hd Hl].
  intros [<-|[<-|[]]]; [rewrite Hd | rewrite Hl]; intros [= <-].
  apply sample_attrs_accepted.
Qed.

Lemma both_modes_accepted (mode : string) (attrs : Attrs) :
  In mode ThemeModes -> both_modes !! mode = Some attrs ->
  sample_kwargs_error attrs = None.
Proof.
  destruct both_modes_modes as [Hd Hl].
  intros [<-|[<-|[]]]; [rewrite Hd | rewrite Hl]; intros [= <-];
    apply sample_attrs_accepted.
Qed.

Lemma custom_disk_reads :
  @read_json_file sample_env (@secure_ops sample_env) custom_disk
    (@theme_file_of sample_env "themes/custom") = inr light_only.
Proof. vm_compute. reflexivity. Qed.

Lemma plain_disk_reads :
  @read_json_file sample_env (@secure_ops sample_env) plain_disk
    (@theme_file_of sample_env "plain") = inr no_mode.
Proof. vm_compute. reflexivity. Qed.

Lemma modeless_par_disk_reads :
  @read_json_file sample_env (@secure_ops sample_env) modeless_par_disk
    (@theme_file_of sample_env "gone")
  = inl (SecureFileOpsError NotFound "file not found") /\
  @read_json_file sample_env (@secure_ops sample_env) modeless_par_disk
    (@theme_file_of sample_env "par") = inr no_mode.
Proof. split; vm_compute; reflexivity. Qed.

Lemma mixed_disk_ready :
  (@ensure_default_theme sample_env (started mixed_disk)).1 = Returned tt /\
  fs (@ensure_default_theme sample_env (started mixed_disk)).2 !! @theme_folder sample_env
  = Some (Dir ["bad.json"; "par.json"]).
Proof. split; vm_compute; reflexivity. Qed.

Lemma mixed_disk_entries :
  Py.basename (@theme_arg sample_env "par.json") = "par" /\
  @theme_file_of sample_env (@theme_arg sample_env "bad.json")
  = ["/"; "d"; "themes"; "bad.json"].
Proof. split; vm_compute; reflexivity. Qed.

Lemma mixed_disk_reads :
  @read_json_file sample_env (@secure_ops sample_env)
    (fs (@ensure_default_theme sample_env (started mixed_disk)).2)
    (@theme_file_of sample_env (@theme_arg sample_env "bad.json"))
  = inl (SecureFileOpsError ParseError "invalid JSON") /\
  @read_json_file sample_env (@secure_ops sample_env)
    (fs (@ensure_default_theme sample_env (started mixed_disk)).2)
    (@theme_file_of sample_env (@theme_arg sample_env "par.json"))
  = inr both_modes.
Proof. split; vm_compute; reflexivity. Qed.

Lemma load_theme_requires_app_witness :
  @load_theme sample_env 1 "par" (not_started fresh_disk)
  = (Raised (Exception "App is not initialized"), not_started fresh_disk).
Proof.
  apply (@load_theme_requires_app sample_env 0 "par" (not_started fresh_disk)).
  reflexivity.
Defined.

(** C1, as the specification words it, fails: the [ThemeModeError] of a definition
    without a mode leaves [load_theme], and leaves [load_themes] too. *)
Lemma mode_error_escapes :
  (@load_theme sample_env 2 "plain" (started plain_disk)).1
  = Raised (ThemeModeError "plain") /\
  (@load_themes sample_env 2 (started plain_disk)).1
  = Raised (ThemeModeError "plain").
Proof. split; vm_compute; reflexivity. Qed.

Lemma load_theme_mode_error_propagates_witness :
  @load_theme sample_env 1 "plain" (started plain_disk)
  = (Raised (ThemeModeError (Py.basename "plain")),
     emit (ReadJson (@theme_file_of sample_env "plain")) (started plain_disk)).
Proof.
  exact (proj1 (@load_theme_mode_error_propagates sample_env 0 "plain"
                  (started plain_disk) running_app no_mode eq_refl plain_disk_reads
                  (proj1 no_mode_modes) (proj2 no_mode_modes))).
Defined.

Lemma load_theme_registers_present_modes_witness :
  exists st' : State,
    @load_theme sample_env 1 "themes/custom" (started custom_disk) = (Returned tt, st') /\
    app st'
    = Some (mkApp [("custom_light", mkTheme "custom_light" light_attrs)] "textual-dark").
Proof.
  destruct (@load_theme_registers_present_modes sample_env 0 "themes/custom"
              (started custom_disk) running_app light_only)
    as (st' & Hrun & _ & Happ & _).
  - reflexivity.
  - exact custom_disk_reads.
  - right. rewrite (proj2 light_only_modes). eauto.
  - exact light_only_accepted.
  - exists st'. split; [exact Hrun |]. rewrite Happ.
    rewrite (proj1 light_only_modes), (proj2 light_only_modes).
    vm_compute. reflexivity.
Defined.


Lemma fallback_recursion_depth_one_witness :
  @load_theme sample_env 2 "missing" (started empty_disk)
  = (Returned tt,
     mkState (Some running_app) empty_disk
       [ReadJson ["/"; "d"; "themes"; "missing.json"];
        error_loading "missing" (SecureFileOpsError NotFound "file not found");
        ReadJson ["/"; "d"; "themes"; "par.json"];
        error_loading "par" (SecureFileOpsError NotFound "file not found")]).
Proof.
  refine (proj2 (proj2 (proj2 (proj2
            (@fallback_recursion_depth_one sample_env 0 "missing" (started empty_disk)
               sample_fallback_is_base_name))))
            running_app
            (SecureFileOpsError NotFound "file not found")
            (SecureFileOpsError NotFound "file not found") _ _ _ _ _ _);
    try (vm_compute; reflexivity).
  vm_compute. discriminate.
Defined.

Lemma ensure_default_theme_idempotent_witness :
  let st1 := (@ensure_default_theme sample_env (started fresh_disk)).2 in
  @ensure_default_theme sample_env st1 = (Returned tt, st1).
Proof.
  refine (proj1 (proj2 (proj2
            (@ensure_default_theme_idempotent sample_env (started fresh_disk) _)))).
  vm_compute. reflexivity.
Defined.

(** C7, as the specification words it, fails for one kind of bad file: a theme file
    that parses but has no mode stops the batch, and the good file listed
    after it is never loaded. *)
Lemma modeless_file_aborts_batch :
  (@load_themes sample_env 2 (started plain_disk)).1 = Raised (ThemeModeError "plain") /\
  registrations (events (@load_themes sample_env 2 (started plain_disk)).2) = [] /\
  theme_keys (@load_themes sample_env 2 (started plain_disk)).2 = [].
Proof. vm_compute. repeat split; reflexivity. Qed.

Lemma load_themes_absorbs_bad_files_witness :
  exists st' : State,
    @load_themes sample_env 2 (started mixed_disk) = (Returned tt, st') /\
    In (ReadJson ["/"; "d"; "themes"; "bad.json"]) (events st') /\
    In "par_dark" (theme_keys st') /\ In "par_light" (theme_keys st').
Proof.
  destruct (@load_themes_absorbs_bad_files sample_env 0 (started mixed_disk)
              running_app ["bad.json"; "par.json"])
    as (st' & Hrun & Hall & _).
  - reflexivity.
  - reflexivity.
  - exact (proj1 mixed_disk_ready).
  - exact (proj2 mixed_disk_ready).
  - intros file [<-|[<-|[]]] _.
    + right. exists (SecureFileOpsError ParseError "invalid JSON").
      split; [exact (proj1 mixed_disk_reads) | reflexivity].
    + left. exists both_modes. split; [exact (proj2 mixed_disk_reads) |].
      split; [left; rewrite (proj1 both_modes_modes); eauto |].
      exact both_modes_accepted.
  - exists st'. split; [exact Hrun |].
    destruct (Hall "bad.json" (or_introl eq_refl) eq_refl) as [Hbad _].
    destruct (Hall "par.json" (or_intror (or_introl eq_refl)) eq_refl) as [_ Hpar].
    rewrite (proj2 mixed_disk_entries) in Hbad.
    rewrite (proj1 mixed_disk_entries) in Hpar.
    split; [exact Hbad |].
    split.
    + exact (proj2 (Hpar both_modes "dark" dark_attrs (proj2 mixed_disk_reads)
                      (or_introl eq_refl) (proj1 both_modes_modes))).
    + exact (proj2 (Hpar both_modes "light" light_attrs (proj2 mixed_disk_reads)
                      (or_intror (or_introl eq_refl)) (proj2 both_modes_modes))).
Defined.

Lemma facade_requires_runtime_witness :
  theme_select_options (not_started fresh_disk)
  = (Raised (Exception "App is not initialized"), not_started fresh_disk).
Proof.
  exact (proj1 (proj2 (proj2
           (facade_requires_runtime (not_started fresh_disk) "par" eq_refl)))).
Defined.

Lemma fallback_branch_catches_everything_witness :
  @load_theme sample_env 2 "gone" (started modeless_par_disk)
  = (Returned tt,
     mkState (Some running_app) modeless_par_disk
       [ReadJson ["/"; "d"; "themes"; "gone.json"];
        error_loading "gone" (SecureFileOpsError NotFound "file not found");
        ReadJson ["/"; "d"; "themes"; "par.json"];
        fallback_failed "par"]).
Proof.
  refine (proj2 (proj2 (proj2
            (@fallback_branch_catches_everything sample_env 0 "gone"
               (started modeless_par_disk) running_app
               (SecureFileOpsError NotFound "file not found")
               eq_refl (proj1 modeless_par_disk_reads) eq_refl _))
            no_mode (proj2 modeless_par_disk_reads)
            (proj1 no_mode_modes) (proj2 no_mode_modes))).
  vm_compute. discriminate.
Defined.

(** A fallback name that carries a directory never equals a stripped name,
    so the guard of the handler never holds: with every file missing the
    recursion goes on for as long as it is given room. *)
Remark nested_fallback_keeps_recursing (fuel : nat) :
  (@load_theme nested_fallback_env fuel "gone" (started empty_disk)).1 = OutOfFuel.
Proof.
  assert (forall (name : string) (st : State),
             name = "x/par" \/ name = "gone" ->
             fs st = empty_disk ->
             @read_json_file nested_fallback_env (@secure_ops nested_fallback_env)
               (fs st) (@theme_file_of nested_fallback_env name)
             = inl (SecureFileOpsError NotFound "file not found")) as Hmissing.
  { intros name st [->| ->] ->; vm_compute; reflexivity. }
  assert (forall (n : nat) (name : string) (st : State),
             name = "x/par" \/ name = "gone" ->
             fs st = empty_disk -> app st = Some running_app ->
             (@load_theme nested_fallback_env n name st).1 = OutOfFuel) as Hloop.
  { induction n as [|n IH]; intros name st Hname Hfs Happ; [reflexivity |].
    rewrite (@load_theme_read_failed nested_fallback_env n name st running_app _ Happ
               (Hmissing name st Hname Hfs)).
    cbv zeta. cbn [is_secure_or_os_error].
    assert (String.eqb (Py.basename name)
              (theme_fallback_name (@settings nested_fallback_env)) = false) as ->
        by (destruct Hname as [->| ->]; reflexivity).
    set (st2 := emit _ _).
    specialize (IH "x/par" st2 (or_introl eq_refl) Hfs Happ).
    change (theme_fallback_name (@settings nested_fallback_env)) with "x/par".
    destruct (@load_theme nested_fallback_env n "x/par" st2) as [o st3].
    cbn in IH. now subst o. }
  now apply Hloop; [right | |].
Qed.


(** ** Further properties of the module *)

Lemma string_length_app (a b : string) :
  String.length (a +:+ b) = String.length a + String.length b.
Proof. induction a as [|x r IH]; sapp; cbn; [reflexivity | now rewrite IH]. Qed.

Lemma chars_app (a b : string) :
  list_ascii_of_string (a +:+ b) = list_ascii_of_string a ++ list_ascii_of_string b.
Proof. induction a as [|x r IH]; sapp; cbn; [reflexivity | now rewrite IH]. Qed.

Lemma chars_inj (a b : string) :
  list_ascii_of_string a = list_ascii_of_string b -> a = b.
Proof.
  intros E. rewrite <- (string_of_list_ascii_of_string a),
    <- (string_of_list_ascii_of_string b). now rewrite E.
Qed.

Lemma string_app_inv_tail (a b s : string) : a +:+ s = b +:+ s -> a = b.
Proof.
  intros E. apply chars_inj. apply (f_equal list_ascii_of_string) in E.
  rewrite !chars_app in E. now apply app_inv_tail in E.
Qed.

Lemma dark_light_differ (b1 b2 : string) : b1 +:+ "_dark" <> b2 +:+ "_light".
Proof.
  intros E. apply (f_equal list_ascii_of_string) in E. rewrite !chars_app in E.
  apply (f_equal (@List.rev ascii)) in E. rewrite !rev_app_distr in E.
  cbn in E. discriminate.
Qed.

Lemma theme_key_parts (base1 base2 mode1 mode2 : string) :
  In mode1 ThemeModes -> In mode2 ThemeModes ->
  base1 +:+ "_" +:+ mode1 = base2 +:+ "_" +:+ mode2 ->
  base1 = base2 /\ mode1 = mode2.
Proof.
  intros [<-|[<-|[]]] [<-|[<-|[]]] E; sapp.
  - split; [now apply string_app_inv_tail in E | reflexivity].
  - now apply dark_light_differ in E.
  - symmetry in E. now apply dark_light_differ in E.
  - split; [now apply string_app_inv_tail in E | reflexivity].
Qed.

Section Naming.

Context `{Env}.

(** X1: [load_theme] looks at the base name only: any directory in front of
    the name changes nothing of what the call does, whatever the state and
    however the call ends. *)
Theorem load_theme_ignores_directories (fuel : nat) (name dir : string) (st : State) :
  load_theme fuel name st = load_theme fuel (Py.basename name) st /\
  load_theme fuel (dir +:+ "/" +:+ name) st = load_theme fuel name st.
Proof.
  assert (forall x : string,
             load_theme fuel x st = load_theme fuel (Py.basename x) st) as Hbase.
  { intros x. destruct fuel as [|n]; [reflexivity |].
    rewrite !load_theme_step. unfold theme_file_of.
    now rewrite basename_idempotent. }
  split; [apply Hbase |].
  rewrite (Hbase (dir +:+ "/" +:+ name)), (Hbase name). now rewrite basename_join.
Qed.

(** X2: the key a theme is registered under tells the base name and the
    mode: two registrations collide only when both are the same. *)
Theorem theme_key_injective (base1 base2 mode1 mode2 : string) :
  In mode1 ThemeModes -> In mode2 ThemeModes ->
  base1 +:+ "_" +:+ mode1 = base2 +:+ "_" +:+ mode2 ->
  base1 = base2 /\ mode1 = mode2.
Proof.
  intros Hm1 Hm2 E. now apply theme_key_parts.
Qed.

End Naming.

(** X3: a [ThemeModeError] does not carry the theme name in its
    [theme_name] attribute: the constructor stores the whole sentence there,
    and the message is that sentence behind a second "Invalid theme: "; it
    is the message [load_theme]'s caller sees. *)
Theorem theme_mode_error_attribute (name : string) :
  error_theme_name (ThemeModeError_init name) <> name /\
  error_message (ThemeModeError_init name)
  = "Invalid theme: " +:+ error_theme_name (ThemeModeError_init name) /\
  error_message (ThemeModeError_init name) = exn_str (ThemeModeError name).
Proof.
  split; [| split; reflexivity].
  unfold ThemeModeError_init, InvalidThemeError_init. cbn [error_theme_name].
  intros E. apply (f_equal String.length) in E.
  rewrite !string_length_app in E. cbn in E. lia.
Qed.

(** *** The registry *)

Lemma dict_get_set_eq {V : Type} (k : string) (v : V) (d : list (string * V)) :
  dict_get k (dict_set k v d) = Some v.
Proof.
  induction d as [|[k0 v0] d IH]; cbn; [now rewrite String.eqb_refl |].
  destruct (String.eqb k0 k) eqn:E; cbn; [now rewrite String.eqb_refl |].
  now rewrite E.
Qed.

Lemma dict_get_set_ne {V : Type} (k k' : string) (v : V) (d : list (string * V)) :
  k <> k' -> dict_get k' (dict_set k v d) = dict_get k' d.
Proof.
  intros Hne. induction d as [|[k0 v0] d IH]; cbn.
  - apply String.eqb_neq in Hne. now rewrite Hne.
  - destruct (String.eqb_spec k0 k) as [->|Hk]; cbn.
    + apply String.eqb_neq in Hne. now rewrite Hne.
    + now rewrite IH.
Qed.

Lemma dict_set_id {V : Type} (k : string) (v : V) (d : list (string * V)) :
  dict_get k d = Some v -> dict_set k v d = d.
Proof.
  induction d as [|[k0 v0] d IH]; cbn; [discriminate |].
  destruct (String.eqb_spec k0 k) as [->|Hk]; [now intros [= ->] |].
  intros Hd. now rewrite (IH Hd).
Qed.

Lemma dict_keys_set_order {V : Type} (k : string) (v : V) (d : list (string * V)) :
  dict_keys (dict_set k v d)
  = dict_keys d ++ match dict_get k d with Some _ => [] | None => [k] end.
Proof.
  induction d as [|[k0 v0] d IH]; cbn; [reflexivity |].
  destruct (String.eqb_spec k0 k) as [->|Hk]; cbn.
  - now rewrite app_nil_r.
  - unfold dict_keys in IH. now rewrite IH.
Qed.

Lemma themes_in_lookup (base mode : string) (d : ThemeDef) (attrs : Attrs)
    (reg : list (string * Theme)) :
  In mode ThemeModes -> d !! mode = Some attrs ->
  dict_get (base +:+ "_" +:+ mode) (register_all (themes_in base d) reg)
  = Some (mkTheme (base +:+ "_" +:+ mode) attrs).
Proof.
  unfold themes_in, ThemeModes. cbn [omap list_omap].
  intros [<-|[<-|[]]] Hd; rewrite Hd.
  - destruct (d !! "light") as [al|];
      cbn [fmap option_fmap option_map register_all fold_left theme_name].
    + rewrite dict_get_set_ne; [apply dict_get_set_eq |].
      sapp. intros E. symmetry in E. now apply dark_light_differ in E.
    + apply dict_get_set_eq.
  - destruct (d !! "dark") as [ad|];
      cbn [fmap option_fmap option_map register_all fold_left theme_name];
      apply dict_get_set_eq.
Qed.

Lemma register_all_twice (base : string) (d : ThemeDef) (reg : list (string * Theme)) :
  register_all (themes_in base d) (register_all (themes_in base d) reg)
  = register_all (themes_in base d) reg.
Proof.
  unfold themes_in, ThemeModes. cbn [omap list_omap].
  destruct (d !! "dark") as [ad|], (d !! "light") as [al|];
    cbn [fmap option_fmap option_map register_all fold_left theme_name];
    try reflexivity.
  - rewrite (dict_set_id (base +:+ "_" +:+ "dark")).
    + apply dict_set_id, dict_get_set_eq.
    + rewrite dict_get_set_ne; [apply dict_get_set_eq |].
      sapp. intros E. symmetry in E. now apply dark_light_differ in E.
  - apply dict_set_id, dict_get_set_eq.
  - apply dict_set_id, dict_get_set_eq.
Qed.

Lemma registry_grows_refl (st : State) : registry_grows st st.
Proof. split; [reflexivity |]. exists []. now rewrite app_nil_r. Qed.

Lemma registry_grows_trans (st1 st2 st3 : State) :
  registry_grows st1 st2 -> registry_grows st2 st3 -> registry_grows st1 st3.
Proof.
  intros [Ha [n1 Hk]] [Ha' [n2 Hk']]. split; [congruence |].
  exists (n1 ++ n2). now rewrite Hk', Hk, app_assoc.
Qed.

Lemma registry_grows_emit (ev : Event) (st : State) : registry_grows st (emit ev st).
Proof. split; [reflexivity |]. exists []. unfold theme_keys. cbn. now rewrite app_nil_r. Qed.

Lemma register_theme_grows (t : Theme) (st : State) :
  registry_grows st (register_theme t st).2.
Proof.
  unfold register_theme. destruct (app st) as [a|] eqn:Ha;
    [| apply registry_grows_refl].
  split.
  - unfold active_theme. cbn. now rewrite Ha.
  - unfold theme_keys, emit, with_app. cbn [app snd available_themes].
    rewrite Ha, dict_keys_set_order. eauto.
Qed.

Section Registry.

Context `{Env}.

Lemma register_modes_grow (base : string) (d : ThemeDef) (modes : list string)
    (st : State) :
  registry_grows st
    (for_each modes (fun mode =>
       match d !! mode with
       | Some attrs =>
           t <- new_theme (base +:+ "_" +:+ mode) attrs ;;
           register_theme t
       | None => ret tt
       end) st).2.
Proof.
  revert st. induction modes as [|mode modes IH]; intros st.
  - apply registry_grows_refl.
  - cbn [for_each]. rewrite bind_run.
    destruct (d !! mode) as [attrs|].
    + rewrite bind_run, new_theme_run.
      destruct (theme_kwargs_error attrs) as [e|]; [apply registry_grows_refl |].
      pose proof (register_theme_grows (mkTheme (base +:+ "_" +:+ mode) attrs) st)
        as Hreg.
      destruct (register_theme _ st) as [[[]|e|] st1]; cbn [snd] in *;
        [| exact Hreg..].
      eapply registry_grows_trans; [exact Hreg | apply IH].
    + unfold ret at 1. apply IH.
Qed.

Lemma load_theme_try_grows (base : string) (file : Path) (st : State) :
  registry_grows st (load_theme_try base file st).2.
Proof.
  unfold load_theme_try. rewrite bind_run. unfold secure_read.
  destruct (read_json_file secure_ops (fs st) file) as [e|d];
    cbn [of_result raise ret]; [apply registry_grows_emit |].
  destruct (negb (has_key "dark" d) && negb (has_key "light" d));
    [apply registry_grows_emit |].
  eapply registry_grows_trans; [apply registry_grows_emit | apply register_modes_grow].
Qed.

Lemma load_theme_grows (fuel : nat) (name : string) (st : State) :
  registry_grows st (load_theme fuel name st).2.
Proof.
  revert name st. induction fuel as [|n IH]; intros name st;
    [apply registry_grows_refl |].
  rewrite load_theme_step. destruct (app st); [| apply registry_grows_refl].
  cbv zeta.
  pose proof (load_theme_try_grows (Py.basename name) (theme_file_of name) st) as Htry.
  destruct (load_theme_try _ _ st) as [[[]|e|] st1]; cbn [snd] in *;
    [exact Htry | | exact Htry].
  destruct (is_secure_or_os_error e); [| exact Htry].
  assert (registry_grows st (emit (error_loading (Py.basename name) e) st1)) as Hlog
      by (eapply registry_grows_trans; [exact Htry | apply registry_grows_emit]).
  destruct (String.eqb _ _); [exact Hlog |].
  pose proof (IH (theme_fallback_name settings)
                 (emit (error_loading (Py.basename name) e) st1)) as Hin.
  destruct (load_theme n _ (emit _ st1)) as [[[]|e'|] st3]; cbn [snd] in *.
  - eapply registry_grows_trans; eauto.
  - eapply registry_grows_trans; [| apply registry_grows_emit].
    eapply registry_grows_trans; eauto.
  - eapply registry_grows_trans; eauto.
Qed.

Lemma load_entries_grow (fuel : nat) (files : list string) (st : State) :
  registry_grows st (for_each files (load_entry fuel) st).2.
Proof.
  revert st. induction files as [|file files IH]; intros st;
    [apply registry_grows_refl |].
  cbn [for_each]. rewrite bind_run.
  assert (registry_grows st (load_entry fuel file st).2) as Hone.
  { unfold load_entry. destruct (Py.endswith _ _);
      [apply load_theme_grows | apply registry_grows_refl]. }
  destruct (load_entry fuel file st) as [[[]|e|] st1]; cbn [snd] in *;
    [| exact Hone..].
  eapply registry_grows_trans; [exact Hone | apply IH].
Qed.

(** X4: loading and then asking: once [load_theme] has loaded a definition,
    [get_theme] returns, for each present mode, the theme named
    [<base>_<mode>] with that mode's attributes. *)
Theorem load_then_get_theme
    (n : nat) (name : string) (st : State) (a : App) (d : ThemeDef)
    (mode : string) (attrs : Attrs) :
  app st = Some a ->
  read_json_file secure_ops (fs st) (theme_file_of name) = inr d ->
  (forall (m : string) (x : Attrs),
      In m ThemeModes -> d !! m = Some x -> theme_kwargs_error x = None) ->
  In mode ThemeModes -> d !! mode = Some attrs ->
  let st' := (load_theme (S n) name st).2 in
  let key := Py.basename name +:+ "_" +:+ mode in
  (load_theme (S n) name st).1 = Returned tt /\
  get_theme key st' = (Returned (mkTheme key attrs), st').
Proof.
  intros Ha Hr Hok Hmode Hd.
  assert (is_Some (d !! "dark") \/ is_Some (d !! "light")) as Hsome.
  { destruct Hmode as [<-|[<-|[]]]; rewrite Hd; eauto. }
  rewrite (load_theme_valid n name st a d Ha Hr Hsome Hok). cbn [fst snd].
  split; [reflexivity |].
  unfold get_theme, bind, gets, registered. cbn [app available_themes].
  now rewrite (themes_in_lookup _ _ _ _ _ Hmode Hd).
Qed.

(** X5: loading the same theme again changes nothing in the registry: the
    second load returns normally and leaves the application, keys, themes
    and order, exactly as the first load left it. *)
Theorem reload_changes_nothing
    (n m : nat) (name : string) (st : State) (a : App) (d : ThemeDef) :
  app st = Some a ->
  read_json_file secure_ops (fs st) (theme_file_of name) = inr d ->
  is_Some (d !! "dark") \/ is_Some (d !! "light") ->
  (forall (mode : string) (attrs : Attrs),
      In mode ThemeModes -> d !! mode = Some attrs -> theme_kwargs_error attrs = None) ->
  let st1 := (load_theme (S n) name st).2 in
  (load_theme (S m) name st1).1 = Returned tt /\
  app (load_theme (S m) name st1).2 = app st1 /\
  fs (load_theme (S m) name st1).2 = fs st.
Proof.
  intros Ha Hr Hsome Hok.
  rewrite (load_theme_valid n name st a d Ha Hr Hsome Hok). cbn [snd].
  set (st1 := registered _ d a _).
  rewrite (load_theme_valid m name st1 _ d eq_refl Hr Hsome Hok). cbn [fst snd].
  split; [reflexivity |]. split; [| reflexivity].
  unfold st1, registered. cbn [app available_themes theme].
  now rewrite register_all_twice.
Qed.

(** X6: whatever [load_theme] and the loop of [load_themes] do, and however
    they end, the themes already registered keep their keys and their
    places: the list of keys only grows at its end. *)
Theorem loading_keeps_registered_keys
    (fuel : nat) (name : string) (files : list string) (st : State) :
  (exists new : list string,
      theme_keys (load_theme fuel name st).2 = theme_keys st ++ new) /\
  (exists new : list string,
      theme_keys (for_each files (load_entry fuel) st).2 = theme_keys st ++ new).
Proof.
  split; [apply load_theme_grows | apply load_entries_grow].
Qed.

(** X7: loading never switches themes and never writes: after any call of
    [load_theme] the active theme and the disk are what they were, and the
    loop of [load_themes] leaves the active theme alone too. *)
Theorem loading_keeps_active_theme
    (fuel : nat) (name : string) (files : list string) (st : State) :
  active_theme (load_theme fuel name st).2 = active_theme st /\
  fs (load_theme fuel name st).2 = fs st /\
  active_theme (for_each files (load_entry fuel) st).2 = active_theme st /\
  fs (for_each files (load_entry fuel) st).2 = fs st.
Proof.
  split; [apply load_theme_grows |]. split; [apply load_theme_effects |].
  split; [apply load_entries_grow | apply load_entries_effects].
Qed.

End Registry.

(** *** Failure paths *)

Section FailurePaths.

Context `{Env}.

(** X8: when a theme other than the fallback cannot be read and the
    fallback can, the call returns normally with the failure logged and the
    fallback's themes registered under the fallback's own name. *)
Theorem failed_theme_loads_fallback
    (n : nat) (name : string) (st : State) (a : App) (e : exn) (d : ThemeDef) :
  app st = Some a ->
  read_json_file secure_ops (fs st) (theme_file_of name) = inl e ->
  is_secure_or_os_error e = true ->
  Py.basename name <> theme_fallback_name settings ->
  read_json_file secure_ops (fs st) (theme_file_of (theme_fallback_name settings))
  = inr d ->
  is_Some (d !! "dark") \/ is_Some (d !! "light") ->
  (forall (mode : string) (attrs : Attrs),
      In mode ThemeModes -> d !! mode = Some attrs -> theme_kwargs_error attrs = None) ->
  let fallback := theme_fallback_name settings in
  let st2 := emit (error_loading (Py.basename name) e)
                  (emit (ReadJson (theme_file_of name)) st) in
  load_theme (S (S n)) name st
  = (Returned tt,
     registered (Py.basename fallback) d a (emit (ReadJson (theme_file_of fallback)) st2)).
Proof.
  intros Ha Hr He Hne Hrf Hsome Hok. cbv zeta.
  rewrite (load_theme_read_failed _ _ _ _ _ Ha Hr). cbv zeta. rewrite He.
  apply String.eqb_neq in Hne. rewrite Hne.
  now rewrite (load_theme_valid n (theme_fallback_name settings)
                 (emit (error_loading (Py.basename name) e)
                       (emit (ReadJson (theme_file_of name)) st))
                 a d Ha Hrf Hsome Hok).
Qed.

(** X9: there is no rolling back. When the constructor takes the dark mode
    and refuses the light one with an error the handler does not catch, the
    error reaches the caller and the dark theme stays registered. *)
Theorem rejected_light_keeps_dark
    (n : nat) (name : string) (st : State) (a : App) (d : ThemeDef)
    (ad al : Attrs) (e : exn) :
  app st = Some a ->
  read_json_file secure_ops (fs st) (theme_file_of name) = inr d ->
  d !! "dark" = Some ad -> theme_kwargs_error ad = None ->
  d !! "light" = Some al -> theme_kwargs_error al = Some e ->
  is_secure_or_os_error e = false ->
  let dark := mkTheme (Py.basename name +:+ "_dark") ad in
  load_theme (S n) name st
  = (Raised e,
     mkState (Some (mkApp (dict_set (theme_name dark) dark (available_themes a))
                          (theme a)))
             (fs st)
             (events st ++ [ReadJson (theme_file_of name); RegisterTheme dark])).
Proof.
  intros Ha Hr Hd Hdok Hl Hlerr He dark.
  assert (load_theme_try (Py.basename name) (theme_file_of name) st
          = (Raised e,
             mkState (Some (mkApp (dict_set (theme_name dark) dark (available_themes a))
                                  (theme a)))
                     (fs st)
                     (events st ++ [ReadJson (theme_file_of name); RegisterTheme dark])))
    as Htry.
  { unfold load_theme_try. rewrite bind_run. unfold secure_read. rewrite Hr.
    cbn [of_result ret]. unfold has_key. rewrite Hd. cbn [negb andb].
    unfold ThemeModes. cbn [for_each]. rewrite bind_run, Hd, bind_run, new_theme_run, Hdok.
    unfold register_theme at 1. cbn [app emit]. rewrite Ha.
    rewrite bind_run, Hl, bind_run, new_theme_run, Hlerr.
    unfold emit, with_app. cbn [app fs events theme_name].
    rewrite <- app_assoc. reflexivity. }
  rewrite load_theme_step, Ha. cbv zeta. now rewrite Htry, He.
Qed.

(** With no application every [.json] entry is one too many. *)
Lemma load_entries_without_app (n : nat) (files : list string) (st : State) :
  app st = None ->
  for_each files (load_entry (S n)) st
  = (if existsb is_json_entry files
     then Raised app_not_initialized else Returned tt, st).
Proof.
  intros Ha. induction files as [|file files IH]; [reflexivity |].
  cbn [for_each existsb]. rewrite bind_run. unfold load_entry, is_json_entry at 1.
  destruct (Py.endswith (Py.lower file) ".json"); cbn [orb].
  - now rewrite load_theme_step, Ha.
  - unfold ret at 1. exact IH.
Qed.

(** X10: [set_app(None)] still prepares the disk, and then fails as soon as
    the theme folder lists a [.json] entry: the default theme is in place,
    no application is set, and the outcome is "App is not initialized"
    exactly when there is something to load. *)
Theorem set_app_none (n : nat) (st : State) (files : list string) :
  (ensure_default_theme (with_app None st)).1 = Returned tt ->
  let st1 := (ensure_default_theme (with_app None st)).2 in
  fs st1 !! theme_folder = Some (Dir files) ->
  set_app (S n) None st
  = (if existsb is_json_entry files
     then Raised (Exception "App is not initialized") else Returned tt, st1) /\
  app st1 = None /\
  path_exists (theme_folder / "par.json")%path (fs st1) = true.
Proof.
  intros Hret st1 Hdir.
  assert (ensure_default_theme (with_app None st) = (Returned tt, st1)) as Hens.
  { unfold st1. destruct (ensure_default_theme (with_app None st)) as [o s0].
    cbn in *. now subst. }
  destruct (ensure_default_theme_returns _ _ Hens) as (Happ & _ & _ & Hfile).
  cbn [app with_app] in Happ.
  split; [| split; [exact Happ | exact Hfile]].
  unfold set_app. rewrite bind_run. unfold modify.
  rewrite (load_themes_step _ _ _ _ Hens Hdir).
  now apply load_entries_without_app.
Qed.

(** X11: errors of the storage outside [load_theme] are not recovered. With
    the theme folder there, its [par.json] missing and the bundled asset
    missing too, [ensure_default_theme] raises the [OSError] of the copy,
    and [load_themes] and [set_app] pass it on before any theme is read. *)
Theorem missing_asset_surfaces (st : State) :
  path_exists theme_folder (fs st) = true ->
  path_exists (theme_folder / "par.json")%path (fs st) = false ->
  fs st !! (module_dir / "themes" / "par.json")%path = None ->
  ensure_default_theme st = (Raised (OSError "No such file or directory"), st) /\
  (forall fuel : nat,
      load_themes fuel st = (Raised (OSError "No such file or directory"), st)) /\
  (forall (fuel : nat) (a : option App),
      set_app fuel a st
      = (Raised (OSError "No such file or directory"), with_app a st)).
Proof.
  intros Hdir Hfile Hasset.
  assert (forall s : State, fs s = fs st ->
            ensure_default_theme s = (Raised (OSError "No such file or directory"), s))
    as Hens.
  { intros s Hs. unfold ensure_default_theme, bind, gets. rewrite Hs, Hdir.
    cbn [negb]. unfold ret at 1. rewrite Hs, Hfile. cbn [negb].
    unfold shutil_copy. now rewrite Hs, Hasset. }
  split; [now apply Hens |]. split.
  - intros fuel. unfold load_themes. now rewrite bind_run, (Hens st eq_refl).
  - intros fuel a. unfold set_app. rewrite bind_run. unfold modify, load_themes.
    now rewrite bind_run, (Hens (with_app a st) eq_refl).
Qed.

End FailurePaths.

(** *** The default theme on disk *)

Lemma add_entry_file (dir q : Path) (c : string) (f : FileSystem) (x : FileContent) :
  add_entry dir c f !! q = Some (File x) <-> f !! q = Some (File x).
Proof.
  unfold add_entry. destruct (f !! dir) as [[es|y]|] eqn:Hd; try reflexivity.
  destruct (bool_decide (c ∈ es)); [reflexivity |].
  rewrite lookup_insert. destruct (decide (dir = q)) as [<-|]; [| reflexivity].
  rewrite Hd. split; discriminate.
Qed.

Lemma mkdir_exist_ok_files (p q : Path) (st : State) (x : FileContent) :
  fs (mkdir_exist_ok p st).2 !! q = Some (File x) <-> fs st !! q = Some (File x).
Proof.
  unfold mkdir_exist_ok. destruct (fs st !! p) as [[es|y]|] eqn:Hp; cbn [snd];
    [reflexivity | reflexivity |].
  cbn [fs with_fs]. rewrite lookup_insert. destruct (decide (p = q)) as [<-|].
  - rewrite Hp. split; discriminate.
  - apply add_entry_file.
Qed.

Lemma mkdir_each_files (ps : list Path) (q : Path) (st : State) (x : FileContent) :
  fs (for_each ps mkdir_exist_ok st).2 !! q = Some (File x)
  <-> fs st !! q = Some (File x).
Proof.
  revert st. induction ps as [|p ps IH]; intros st; [reflexivity |].
  cbn [for_each]. rewrite bind_run.
  pose proof (mkdir_exist_ok_files p q st x) as Hone.
  destruct (mkdir_exist_ok p st) as [[[]|e|] st1]; cbn [snd] in *;
    [| exact Hone..].
  now rewrite IH.
Qed.

Lemma mkdir_each_elsewhere (ps : list Path) (q : Path) (st : State) :
  ~ In q ps ->
  path_exists q (fs (for_each ps mkdir_exist_ok st).2) = path_exists q (fs st).
Proof.
  revert st. induction ps as [|p ps IH]; intros st Hq; [reflexivity |].
  cbn [for_each]. rewrite bind_run.
  assert (path_exists q (fs (mkdir_exist_ok p st).2) = path_exists q (fs st)) as Hone.
  { unfold mkdir_exist_ok. destruct (fs st !! p) as [[es|y]|]; cbn [snd];
      [reflexivity | reflexivity |].
    cbn [fs with_fs]. rewrite path_exists_insert, path_exists_add_entry.
    destruct (decide (p = q)) as [->|]; [| reflexivity].
    exfalso. apply Hq. now left. }
  destruct (mkdir_exist_ok p st) as [[[]|e|] st1]; cbn [snd] in *;
    [| exact Hone..].
  rewrite IH; [exact Hone |]. intros Hin. apply Hq. now right.
Qed.

Lemma prefixes_not_longer (p q : Path) : In q (prefixes p) -> length q <= length p.
Proof.
  unfold prefixes. intros Hq. apply in_map_iff in Hq as (n & <- & _).
  rewrite length_take. lia.
Qed.

Lemma shutil_copy_keeps_files (src dst q : Path) (st : State) (x : FileContent) :
  path_exists dst (fs st) = false ->
  fs st !! q = Some (File x) ->
  fs (shutil_copy src dst st).2 !! q = Some (File x).
Proof.
  unfold path_exists, shutil_copy. intros Hdst Hq.
  destruct (fs st !! src) as [[es|c]|]; [exact Hq | | exact Hq].
  destruct (fs st !! dst) as [y|] eqn:Hd; [discriminate |].
  unfold write_file. destruct (fs st !! Py.parent dst) as [[es|y]|];
    [| exact Hq..].
  cbn [snd fs with_fs]. rewrite lookup_insert.
  destruct (decide (dst = q)) as [->|]; [congruence |].
  now apply add_entry_file.
Qed.

Lemma shutil_copy_content (src dst : Path) (st st' : State) :
  path_exists dst (fs st) = false ->
  shutil_copy src dst st = (Returned tt, st') ->
  exists c : FileContent,
    fs st !! src = Some (File c) /\ fs st' !! dst = Some (File c).
Proof.
  unfold path_exists, shutil_copy. intros Hdst.
  destruct (fs st !! src) as [[es|c]|]; [discriminate | | discriminate].
  destruct (fs st !! dst) as [y|]; [discriminate |].
  unfold write_file. destruct (fs st !! Py.parent dst) as [[es|y]|];
    [| discriminate..].
  intros [= <-]. exists c. split; [reflexivity |].
  cbn [fs with_fs]. now rewrite lookup_insert_eq.
Qed.

Section DefaultThemeOnDisk.

Context `{Env}.

(** X12: [ensure_default_theme] never changes or removes a regular file
    that is there: whatever it does and however it ends, every file of the
    disk is found afterwards where it was, with the content it had. *)
Theorem ensure_default_theme_keeps_files (st : State) (q : Path) (x : FileContent) :
  fs st !! q = Some (File x) ->
  fs (ensure_default_theme st).2 !! q = Some (File x).
Proof.
  intros Hq. unfold ensure_default_theme. rewrite bind_run. unfold gets at 1.
  rewrite bind_run.
  set (m := if negb (path_exists theme_folder (fs st))
            then mkdir_parents theme_folder else ret tt).
  assert (fs (m st).2 !! q = Some (File x)) as Hq1.
  { unfold m. destruct (negb (path_exists theme_folder (fs st))); [| exact Hq].
    unfold mkdir_parents. now apply mkdir_each_files. }
  destruct (m st) as [[[]|e|] st1]; cbn [snd] in *; [| exact Hq1..].
  rewrite bind_run. unfold gets at 1.
  destruct (path_exists (theme_folder / "par.json")%path (fs st1)) eqn:Hfile;
    cbn [negb]; [exact Hq1 |].
  now apply shutil_copy_keeps_files.
Qed.

(** X13: the default theme is seeded with the bundled asset as it is: when
    [par.json] is missing from the theme folder and the call returns, the
    asset exists and the new [par.json] has exactly its content. *)
Theorem default_theme_copied_verbatim (st : State) :
  path_exists (theme_folder / "par.json")%path (fs st) = false ->
  (ensure_default_theme st).1 = Returned tt ->
  exists c : FileContent,
    fs st !! (module_dir / "themes" / "par.json")%path = Some (File c) /\
    fs (ensure_default_theme st).2 !! (theme_folder / "par.json")%path = Some (File c).
Proof.
  intros Hfile Hret.
  destruct (ensure_default_theme st) as [o st'] eqn:Hens. cbn [fst snd] in *. subst o.
  revert Hens. unfold ensure_default_theme. rewrite bind_run. unfold gets at 1.
  rewrite bind_run.
  destruct (path_exists theme_folder (fs st)) eqn:Hdir; cbn [negb].
  - unfold ret at 1. rewrite bind_run. unfold gets at 1. rewrite Hfile. cbn [negb].
    intros Hcopy. exact (shutil_copy_content _ _ _ _ Hfile Hcopy).
  - unfold mkdir_parents.
    assert (path_exists (theme_folder / "par.json")%path
              (fs (for_each (prefixes theme_folder) mkdir_exist_ok st).2) = false)
      as Hfile1.
    { rewrite mkdir_each_elsewhere; [exact Hfile |].
      intros Hin. apply prefixes_not_longer in Hin.
      change (theme_folder / "par.json")%path with (theme_folder ++ ["par.json"]) in Hin.
      rewrite length_app in Hin. cbn in Hin. lia. }
    pose proof (fun c => mkdir_each_files (prefixes theme_folder)
                           (module_dir / "themes" / "par.json")%path st c) as Hasset.
    destruct (for_each (prefixes theme_folder) mkdir_exist_ok st) as [[[]|e|] st1];
      cbn [fst snd] in *; [| discriminate..].
    rewrite bind_run. unfold gets at 1. rewrite Hfile1. cbn [negb].
    intros Hcopy.
    destruct (shutil_copy_content _ _ _ _ Hfile1 Hcopy) as (c & Hsrc & Hdst).
    exists c. split; [now apply Hasset | exact Hdst].
Qed.

End DefaultThemeOnDisk.

(** *** Directory entries *)

Lemma lower_app (a b : string) : Py.lower (a +:+ b) = Py.lower a +:+ Py.lower b.
Proof. induction a as [|x r IH]; sapp; cbn [Py.lower]; sapp; [reflexivity | now rewrite IH]. Qed.

Lemma substring_all (b : string) : String.substring 0 (String.length b) b = b.
Proof. induction b as [|x r IH]; cbn; [reflexivity | now rewrite IH]. Qed.

Lemma substring_app_r (a b : string) :
  String.substring (String.length a) (String.length b) (a +:+ b) = b.
Proof. induction a as [|x r IH]; sapp; cbn; [apply substring_all | exact IH]. Qed.

Lemma endswith_app (a b : string) : Py.endswith (a +:+ b) b = true.
Proof.
  unfold Py.endswith. rewrite string_length_app.
  replace (String.length a + String.length b - String.length b) with (String.length a)
    by lia.
  rewrite substring_app_r, String.eqb_refl, andb_true_r.
  apply Nat.leb_le. lia.
Qed.

Lemma lower_ascii_dot (c : ascii) : Py.lower_ascii c = "."%char -> c = "."%char.
Proof.
  destruct c as [[] [] [] [] [] [] [] []]; vm_compute; intros E;
    try reflexivity; discriminate.
Qed.

Lemma lower_ascii_letter (c y : ascii) :
  Py.lower_ascii c = y -> y <> "."%char -> y <> "/"%char ->
  Ascii.eqb c "." = false /\ Ascii.eqb c "/" = false.
Proof.
  intros E Hd Hs. split; apply Ascii.eqb_neq; intros ->; vm_compute in E; congruence.
Qed.

(** An extension that lower-cases to [.json] is a dot and four letters. *)
Lemma lower_json_shape (ext : string) :
  Py.lower ext = ".json" ->
  exists e : string,
    ext = String "." e /\ Py.has_char "." e = false /\ Py.has_char "/" e = false.
Proof.
  destruct ext as [|c0 [|c1 [|c2 [|c3 [|c4 [|c5 r]]]]]]; cbn [Py.lower];
    try discriminate.
  intros [= E0 E1 E2 E3 E4]. apply lower_ascii_dot in E0. subst c0.
  eexists. split; [reflexivity |].
  destruct (lower_ascii_letter _ _ E1) as [D1 S1]; [discriminate.. |].
  destruct (lower_ascii_letter _ _ E2) as [D2 S2]; [discriminate.. |].
  destruct (lower_ascii_letter _ _ E3) as [D3 S3]; [discriminate.. |].
  destruct (lower_ascii_letter _ _ E4) as [D4 S4]; [discriminate.. |].
  cbn [Py.has_char]. now rewrite D1, D2, D3, D4, S1, S2, S3, S4.
Qed.

Lemma cut_ext_any (g e : string) :
  Py.has_char "." e = false -> Py.cut_ext (g +:+ String "." e) = g.
Proof.
  intros He. induction g as [|a r IH]; sapp.
  - cbn [Py.cut_ext]. now rewrite He.
  - cbn [Py.cut_ext]. rewrite has_char_app. cbn [Py.has_char].
    rewrite Ascii.eqb_refl, orb_true_r. now rewrite IH.
Qed.

Lemma splitext_name_any (stem e : string) :
  only_dots stem = false -> Py.has_char "." e = false ->
  Py.splitext_name (stem +:+ String "." e) = stem.
Proof.
  intros Hd He. induction stem as [|a r IH]; [discriminate |].
  rewrite string_app_cons. cbn [Py.splitext_name]. cbn [only_dots] in Hd.
  destruct (Ascii.eqb a ".") eqn:Ha.
  - cbn in Hd. now rewrite (IH Hd).
  - rewrite <- string_app_cons. now apply cut_ext_any.
Qed.

Lemma splitext_root_no_slash (p : string) :
  Py.has_char "/" p = false -> Py.splitext_root p = Py.splitext_name p.
Proof.
  destruct p as [|a r]; [reflexivity |]. cbn [Py.has_char Py.splitext_root].
  intros Hp. apply orb_false_iff in Hp as [Ha Hr]. now rewrite Hr, Ha.
Qed.

Lemma only_dots_no_slash (s : string) : only_dots s = true -> Py.has_char "/" s = false.
Proof.
  induction s as [|a r IH]; [reflexivity |]. cbn [only_dots Py.has_char].
  intros Hs. apply andb_true_iff in Hs as [Ha Hr].
  apply Ascii.eqb_eq in Ha. subst a. now rewrite (IH Hr).
Qed.

Lemma splitext_name_dots (dots : string) :
  only_dots dots = true -> Py.splitext_name (dots +:+ ".json") = dots +:+ ".json".
Proof.
  induction dots as [|a r IH]; [reflexivity |]. cbn [only_dots].
  intros Hs. apply andb_true_iff in Hs as [Ha Hr].
  rewrite string_app_cons. cbn [Py.splitext_name]. now rewrite Ha, (IH Hr).
Qed.

Section DirectoryEntries.

Context `{Env}.

(** X14: the filter of [load_themes] takes the extension in any letter
    case, but the name handed on has lost it and [load_theme] puts a
    lower-case [.json] back: an entry [<stem>.JSON] makes it ask for
    [<stem>.json]. *)
Theorem any_case_extension_reads_lower_case (stem ext : string) :
  Py.has_char "/" stem = false -> only_dots stem = false ->
  Py.lower ext = ".json" ->
  is_json_entry (stem +:+ ext) = true /\
  Py.basename (theme_arg (stem +:+ ext)) = stem /\
  theme_file_of (theme_arg (stem +:+ ext)) = theme_folder ++ [stem +:+ ".json"].
Proof.
  intros Hs Hd Hext.
  assert (Py.basename (theme_arg (stem +:+ ext)) = stem) as Hb.
  { destruct (lower_json_shape ext Hext) as (e & -> & He & Hse).
    unfold theme_arg. rewrite basename_join, splitext_root_no_slash.
    - rewrite (splitext_name_any stem e Hd He). now apply basename_id.
    - rewrite has_char_app, Hs. cbn [Py.has_char]. now rewrite Hse. }
  split; [| split; [exact Hb | now rewrite theme_file_of_eq, Hb]].
  unfold is_json_entry. rewrite lower_app, Hext. apply endswith_app.
Qed.

(** X15: an entry made of dots and [.json] (the entry [.json] itself, for
    one) passes the filter with no extension to lose: [load_theme] is asked
    for the entry's whole name and looks for [<entry>.json]. *)
Theorem dotted_entry_reads_double_extension (dots : string) :
  only_dots dots = true ->
  is_json_entry (dots +:+ ".json") = true /\
  theme_file_of (theme_arg (dots +:+ ".json"))
  = theme_folder ++ [(dots +:+ ".json") +:+ ".json"].
Proof.
  intros Hd.
  assert (Py.has_char "/" (dots +:+ ".json") = false) as Hs
      by (rewrite has_char_app, (only_dots_no_slash dots Hd); reflexivity).
  split.
  - unfold is_json_entry. rewrite lower_app. apply endswith_app.
  - rewrite theme_file_of_eq. unfold theme_arg.
    rewrite basename_join, (splitext_root_no_slash _ Hs), (splitext_name_dots dots Hd).
    now rewrite (basename_id _ Hs).
Qed.

Lemma load_entries_in_order (n : nat) (files : list string) (f : FileSystem) :
  (forall file : string, In file files -> is_json_entry file = true ->
     exists d : ThemeDef,
       read_json_file secure_ops f (theme_file_of (theme_arg file)) = inr d /\
       (is_Some (d !! "dark") \/ is_Some (d !! "light")) /\
       (forall (mode : string) (attrs : Attrs),
           In mode ThemeModes -> d !! mode = Some attrs ->
           theme_kwargs_error attrs = None)) ->
  forall st : State, fs st = f -> truthy (app st) = true ->
  exists (st' : State) (evs : list Event),
    for_each files (load_entry (S n)) st = (Returned tt, st') /\
    events st' = events st ++ evs /\
    reads evs = map (fun file => theme_file_of (theme_arg file))
                    (List.filter is_json_entry files).
Proof.
  induction files as [|file files IH]; intros Hall st Hfs Happ.
  - exists st, []. rewrite app_nil_r. auto.
  - cbn [for_each List.filter]. rewrite bind_run. unfold load_entry.
    fold (is_json_entry file).
    destruct (is_json_entry file) eqn:Hjson.
    + destruct (app st) as [a|] eqn:Ha; [| discriminate].
      destruct (Hall file (or_introl eq_refl) Hjson) as (d & Hr & Hsome & Hok).
      rewrite <- Hfs in Hr.
      rewrite (load_theme_valid n _ st a d Ha Hr Hsome Hok).
      set (st1 := registered _ d a _).
      destruct (IH (fun x Hx => Hall x (or_intror Hx)) st1 Hfs eq_refl)
        as (st' & evs & Hrun & Hev & Hreads).
      exists st', (ReadJson (theme_file_of (theme_arg file))
                   :: map RegisterTheme (themes_in (Py.basename (theme_arg file)) d)
                   ++ evs).
      split; [exact Hrun |]. split.
      * rewrite Hev. unfold st1, registered. cbn [events emit].
        now rewrite <- !app_assoc.
      * rewrite reads_cons_read, reads_app, reads_registrations, Hreads.
        reflexivity.
    + unfold ret at 1.
      exact (IH (fun x Hx => Hall x (or_intror Hx)) st Hfs Happ).
Qed.

(** X16: [load_themes] takes the entries in the order the directory lists
    them. When every [.json] entry holds a loadable definition, it returns
    normally having asked the accessor exactly once per [.json] entry, in
    listing order, and never for any other entry. *)
Theorem load_themes_reads_in_listing_order
    (n : nat) (st : State) (a : App) (files : list string) :
  app st = Some a ->
  (ensure_default_theme st).1 = Returned tt ->
  let disk := fs (ensure_default_theme st).2 in
  disk !! theme_folder = Some (Dir files) ->
  (forall file : string, In file files -> is_json_entry file = true ->
     exists d : ThemeDef,
       read_json_file secure_ops disk (theme_file_of (theme_arg file)) = inr d /\
       (is_Some (d !! "dark") \/ is_Some (d !! "light")) /\
       (forall (mode : string) (attrs : Attrs),
           In mode ThemeModes -> d !! mode = Some attrs ->
           theme_kwargs_error attrs = None)) ->
  exists (st' : State) (evs : list Event),
    load_themes (S n) st = (Returned tt, st') /\
    events st' = events st ++ evs /\
    reads evs = map (fun file => theme_file_of (theme_arg file))
                    (List.filter is_json_entry files).
Proof.
  intros Ha Hret disk Hdir Hall.
  destruct (ensure_default_theme st) as [o st1] eqn:Hens. cbn in Hret. subst o.
  destruct (ensure_default_theme_returns _ _ Hens) as (Happ1 & Hev1 & _).
  cbn [snd] in disk.
  destruct (load_entries_in_order n files disk Hall st1 eq_refl)
    as (st' & evs & Hrun & Hev & Hreads).
  { now rewrite Happ1, Ha. }
  exists st', evs. rewrite (load_themes_step _ _ _ _ Hens Hdir).
  split; [exact Hrun |]. split; [congruence | exact Hreads].
Qed.

End DirectoryEntries.

(** *** What a load leaves alone *)

Lemma register_all_other (k : string) (ts : list Theme) (reg : list (string * Theme)) :
  (forall t : Theme, In t ts -> theme_name t <> k) ->
  dict_get k (register_all ts reg) = dict_get k reg.
Proof.
  revert reg. induction ts as [|t ts IH]; intros reg Hne; [reflexivity |].
  change (register_all (t :: ts) reg)
    with (register_all ts (dict_set (theme_name t) t reg)).
  rewrite IH; [| intros x Hx; apply Hne; now right].
  apply dict_get_set_ne, Hne. now left.
Qed.

Lemma themes_in_names (base : string) (d : ThemeDef) (t : Theme) :
  In t (themes_in base d) ->
  exists (mode : string) (attrs : Attrs),
    In mode ThemeModes /\ d !! mode = Some attrs /\
    t = mkTheme (base +:+ "_" +:+ mode) attrs.
Proof.
  unfold themes_in. intros Ht. apply list_elem_of_In, list_elem_of_omap in Ht
    as (mode & Hmode & Hd).
  destruct (d !! mode) as [attrs|] eqn:E; [| discriminate].
  injection Hd as <-. exists mode, attrs. now rewrite <- list_elem_of_In.
Qed.

Section Untouched.

Context `{Env}.

(** X17: loading one theme does not disturb the others: under every key
    that is not one of the loaded theme's own, [get_theme] answers after the
    load what it answered before. *)
Theorem load_leaves_other_themes
    (n : nat) (name : string) (st : State) (a : App) (d : ThemeDef) (key : string) :
  app st = Some a ->
  read_json_file secure_ops (fs st) (theme_file_of name) = inr d ->
  is_Some (d !! "dark") \/ is_Some (d !! "light") ->
  (forall (mode : string) (attrs : Attrs),
      In mode ThemeModes -> d !! mode = Some attrs -> theme_kwargs_error attrs = None) ->
  (forall mode : string, In mode ThemeModes ->
                         key <> Py.basename name +:+ "_" +:+ mode) ->
  (get_theme key (load_theme (S n) name st).2).1 = (get_theme key st).1.
Proof.
  intros Ha Hr Hsome Hok Hkey.
  rewrite (load_theme_valid n name st a d Ha Hr Hsome Hok). cbn [snd].
  unfold get_theme, bind, gets, registered. cbn [app available_themes]. rewrite Ha.
  rewrite register_all_other;
    [now destruct (dict_get key (available_themes a)) |].
  intros t Ht. apply themes_in_names in Ht as (mode & attrs & Hmode & _ & ->).
  cbn [theme_name]. intros E. now apply (Hkey mode Hmode).
Qed.

(** X18: a mode the definition does not have gets no theme: when the key
    [<base>_<mode>] was free before the load it is still free after it, and
    [get_theme] raises [KeyError] for it. *)
Theorem absent_mode_registers_nothing
    (n : nat) (name : string) (st : State) (a : App) (d : ThemeDef) (mode : string) :
  app st = Some a ->
  read_json_file secure_ops (fs st) (theme_file_of name) = inr d ->
  is_Some (d !! "dark") \/ is_Some (d !! "light") ->
  (forall (m : string) (attrs : Attrs),
      In m ThemeModes -> d !! m = Some attrs -> theme_kwargs_error attrs = None) ->
  In mode ThemeModes -> d !! mode = None ->
  let key := Py.basename name +:+ "_" +:+ mode in
  dict_get key (available_themes a) = None ->
  let st' := (load_theme (S n) name st).2 in
  get_theme key st' = (Raised (KeyError key), st').
Proof.
  intros Ha Hr Hsome Hok Hmode Hd key Hfree.
  rewrite (load_theme_valid n name st a d Ha Hr Hsome Hok). cbn [snd].
  unfold get_theme, bind, gets, registered. cbn [app available_themes].
  rewrite register_all_other; [now rewrite Hfree |].
  intros t Ht. apply themes_in_names in Ht as (m & attrs & Hm & Hdm & ->).
  cbn [theme_name]. intros E.
  apply theme_key_parts in E as [_ ->]; [congruence | exact Hm | exact Hmode].
Qed.

(** X19: [ensure_default_theme] only asks whether the theme folder exists,
    not what it is. When the path is a regular file with nothing below it,
    no directory is made, the copy of the default theme fails, and the
    [OSError] reaches the caller with the disk unchanged. *)
Theorem theme_folder_is_a_file (st : State) (c : FileContent) :
  fs st !! theme_folder = Some (File c) ->
  path_exists (theme_folder / "par.json")%path (fs st) = false ->
  exists msg : string,
    ensure_default_theme st = (Raised (OSError msg), st) /\
    forall fuel : nat, load_themes fuel st = (Raised (OSError msg), st).
Proof.
  intros Hdir Hfile.
  assert (exists msg : string, ensure_default_theme st = (Raised (OSError msg), st))
    as [msg Hens].
  { unfold ensure_default_theme, bind, gets.
    assert (path_exists theme_folder (fs st) = true) as ->
        by (unfold path_exists; now rewrite Hdir).
    cbn [negb]. unfold ret at 1. rewrite Hfile. cbn [negb].
    unfold shutil_copy. unfold path_exists in Hfile.
    destruct (fs st !! (module_dir / "themes" / "par.json")%path) as [[es|x]|];
      [eauto | | eauto].
    destruct (fs st !! (theme_folder / "par.json")%path) as [y|]; [discriminate |].
    unfold write_file.
    change (Py.parent (theme_folder / "par.json")%path)
      with (List.removelast (theme_folder ++ ["par.json"])).
    rewrite removelast_last, Hdir. eauto. }
  exists msg. split; [exact Hens |].
  intros fuel. unfold load_themes. now rewrite bind_run, Hens.
Qed.

End Untouched.

(** *** The further properties on the sample installation *)

Lemma theme_key_injective_witness : "par" = "par" /\ "dark" = "dark".
Proof.
  exact (theme_key_injective "par" "par" "dark" "dark"
           (or_introl eq_refl) (or_introl eq_refl) eq_refl).
Defined.

Lemma load_then_get_theme_witness :
  let st' := (@load_theme sample_env 1 "themes/custom" (started custom_disk)).2 in
  get_theme (Py.basename "themes/custom" +:+ "_" +:+ "light") st'
  = (Returned (mkTheme (Py.basename "themes/custom" +:+ "_" +:+ "light") light_attrs),
     st').
Proof.
  exact (proj2 (@load_then_get_theme sample_env 0 "themes/custom" (started custom_disk)
                  running_app light_only "light" light_attrs
                  eq_refl custom_disk_reads light_only_accepted
                  (or_intror (or_introl eq_refl)) (proj2 light_only_modes))).
Defined.

Lemma light_only_has_mode : is_Some (light_only !! "dark") \/ is_Some (light_only !! "light").
Proof. right. rewrite (proj2 light_only_modes). eauto. Qed.

Lemma both_modes_has_mode : is_Some (both_modes !! "dark") \/ is_Some (both_modes !! "light").
Proof. left. rewrite (proj1 both_modes_modes). eauto. Qed.

Lemma reload_changes_nothing_witness :
  let st1 := (@load_theme sample_env 1 "custom" (started custom_disk)).2 in
  app (@load_theme sample_env 1 "custom" st1).2 = app st1.
Proof.
  exact (proj1 (proj2
           (@reload_changes_nothing sample_env 0 0 "custom" (started custom_disk)
              running_app light_only eq_refl custom_disk_reads
              light_only_has_mode light_only_accepted))).
Defined.

Lemma par_disk_reads :
  @read_json_file sample_env (@secure_ops sample_env) par_disk
    (@theme_file_of sample_env "gone")
  = inl (SecureFileOpsError NotFound "file not found") /\
  @read_json_file sample_env (@secure_ops sample_env) par_disk
    (@theme_file_of sample_env "par") = inr both_modes.
Proof. split; vm_compute; reflexivity. Qed.

Lemma gone_is_not_the_fallback :
  Py.basename "gone" <> theme_fallback_name (@settings sample_env).
Proof. vm_compute. discriminate. Qed.

Lemma failed_theme_loads_fallback_witness :
  (@load_theme sample_env 2 "gone" (started par_disk)).1 = Returned tt /\
  theme_keys (@load_theme sample_env 2 "gone" (started par_disk)).2
  = ["par_dark"; "par_light"].
Proof.
  rewrite (@failed_theme_loads_fallback sample_env 0 "gone" (started par_disk)
             running_app (SecureFileOpsError NotFound "file not found") both_modes
             eq_refl (proj1 par_disk_reads) eq_refl gone_is_not_the_fallback
             (proj2 par_disk_reads) both_modes_has_mode both_modes_accepted).
  split; [reflexivity |].
  unfold theme_keys, registered, themes_in, ThemeModes. cbn [app omap list_omap].
  rewrite (proj1 both_modes_modes), (proj2 both_modes_modes). vm_compute. reflexivity.
Defined.

Lemma half_disk_facts :
  @read_json_file sample_env (@secure_ops sample_env) half_disk
    (@theme_file_of sample_env "half") = inr named_light /\
  named_light !! "dark" = Some dark_attrs /\
  named_light !! "light" = Some ({[ "name" := "x" ]} : Attrs) /\
  sample_kwargs_error ({[ "name" := "x" ]} : Attrs)
  = Some (TypeError "got multiple values for keyword argument 'name'").
Proof. repeat split; vm_compute; reflexivity. Qed.

Lemma rejected_light_keeps_dark_witness :
  (@load_theme sample_env 1 "half" (started half_disk)).1
  = Raised (TypeError "got multiple values for keyword argument 'name'") /\
  theme_keys (@load_theme sample_env 1 "half" (started half_disk)).2 = ["half_dark"].
Proof.
  destruct half_disk_facts as (Hr & Hd & Hl & He).
  rewrite (@rejected_light_keeps_dark sample_env 0 "half" (started half_disk)
             running_app named_light dark_attrs _ _ eq_refl Hr Hd
             (proj1 sample_attrs_accepted) Hl He eq_refl).
  split; reflexivity.
Defined.

Lemma par_disk_ready :
  (@ensure_default_theme sample_env (with_app None (started par_disk))).1 = Returned tt /\
  fs (@ensure_default_theme sample_env (with_app None (started par_disk))).2
    !! @theme_folder sample_env = Some (Dir ["par.json"]).
Proof. split; vm_compute; reflexivity. Qed.

Lemma set_app_none_witness :
  (@set_app sample_env 1 None (started par_disk)).1
  = Raised (Exception "App is not initialized").
Proof.
  rewrite (proj1 (@set_app_none sample_env 0 (started par_disk) ["par.json"]
                    (proj1 par_disk_ready) (proj2 par_disk_ready))).
  reflexivity.
Defined.

Lemma empty_disk_facts :
  path_exists (@theme_folder sample_env) empty_disk = true /\
  path_exists (@theme_folder sample_env / "par.json")%path empty_disk = false /\
  empty_disk !! (@module_dir sample_env / "themes" / "par.json")%path = None.
Proof. repeat split; vm_compute; reflexivity. Qed.

Lemma missing_asset_surfaces_witness :
  @load_themes sample_env 2 (started empty_disk)
  = (Raised (OSError "No such file or directory"), started empty_disk).
Proof.
  destruct empty_disk_facts as (Hd & Hf & Ha).
  exact (proj1 (proj2 (@missing_asset_surfaces sample_env (started empty_disk) Hd Hf Ha))
           2).
Defined.

Lemma fresh_disk_facts :
  fresh_disk !! ["/"; "pkg"; "themes"; "par.json"] = Some (File (json_file both_modes)) /\
  path_exists (@theme_folder sample_env / "par.json")%path fresh_disk = false /\
  (@ensure_default_theme sample_env (started fresh_disk)).1 = Returned tt.
Proof. repeat split; vm_compute; reflexivity. Qed.

Lemma ensure_default_theme_keeps_files_witness :
  fs (@ensure_default_theme sample_env (started fresh_disk)).2
    !! ["/"; "pkg"; "themes"; "par.json"]
  = Some (File (json_file both_modes)).
Proof.
  exact (@ensure_default_theme_keeps_files sample_env (started fresh_disk) _ _
           (proj1 fresh_disk_facts)).
Defined.

Lemma default_theme_copied_verbatim_witness :
  exists c : FileContent,
    fresh_disk !! (@module_dir sample_env / "themes" / "par.json")%path = Some (File c) /\
    fs (@ensure_default_theme sample_env (started fresh_disk)).2
      !! (@theme_folder sample_env / "par.json")%path = Some (File c).
Proof.
  exact (@default_theme_copied_verbatim sample_env (started fresh_disk)
           (proj1 (proj2 fresh_disk_facts)) (proj2 (proj2 fresh_disk_facts))).
Defined.

Lemma any_case_extension_reads_lower_case_witness :
  is_json_entry ("Loud" +:+ ".JSON") = true /\
  @theme_file_of sample_env (@theme_arg sample_env ("Loud" +:+ ".JSON"))
  = @theme_folder sample_env ++ ["Loud" +:+ ".json"].
Proof.
  destruct (@any_case_extension_reads_lower_case sample_env "Loud" ".JSON"
              eq_refl eq_refl eq_refl) as (Hj & _ & Hf).
  split; [exact Hj | exact Hf].
Defined.

Lemma dotted_entry_reads_double_extension_witness :
  @theme_file_of sample_env (@theme_arg sample_env ("" +:+ ".json"))
  = @theme_folder sample_env ++ [("" +:+ ".json") +:+ ".json"].
Proof.
  exact (proj2 (@dotted_entry_reads_double_extension sample_env "" eq_refl)).
Defined.

Lemma listed_disk_ready :
  (@ensure_default_theme sample_env (started listed_disk)).1 = Returned tt /\
  fs (@ensure_default_theme sample_env (started listed_disk)).2
    !! @theme_folder sample_env
  = Some (Dir ["b.json"; "notes.txt"; "par.json"; "a.json"]).
Proof. split; vm_compute; reflexivity. Qed.

Lemma listed_disk_reads :
  let disk := fs (@ensure_default_theme sample_env (started listed_disk)).2 in
  @read_json_file sample_env (@secure_ops sample_env) disk
    (@theme_file_of sample_env (@theme_arg sample_env "b.json")) = inr both_modes /\
  @read_json_file sample_env (@secure_ops sample_env) disk
    (@theme_file_of sample_env (@theme_arg sample_env "par.json")) = inr both_modes /\
  @read_json_file sample_env (@secure_ops sample_env) disk
    (@theme_file_of sample_env (@theme_arg sample_env "a.json")) = inr light_only.
Proof. repeat split; vm_compute; reflexivity. Qed.

Lemma listed_disk_paths :
  map (fun file => @theme_file_of sample_env (@theme_arg sample_env file))
      (List.filter is_json_entry ["b.json"; "notes.txt"; "par.json"; "a.json"])
  = [["/"; "d"; "themes"; "b.json"]; ["/"; "d"; "themes"; "par.json"];
     ["/"; "d"; "themes"; "a.json"]].
Proof. vm_compute. reflexivity. Qed.

Lemma load_themes_reads_in_listing_order_witness :
  exists (st' : State) (evs : list Event),
    @load_themes sample_env 1 (started listed_disk) = (Returned tt, st') /\
    events st' = evs /\
    reads evs = [["/"; "d"; "themes"; "b.json"]; ["/"; "d"; "themes"; "par.json"];
                 ["/"; "d"; "themes"; "a.json"]].
Proof.
  destruct listed_disk_reads as (Hb & Hp & Ha).
  destruct (@load_themes_reads_in_listing_order sample_env 0 (started listed_disk)
              running_app ["b.json"; "notes.txt"; "par.json"; "a.json"]
              eq_refl (proj1 listed_disk_ready) (proj2 listed_disk_ready))
    as (st' & evs & Hrun & Hev & Hreads).
  - intros file [<-|[<-|[<-|[<-|[]]]]] Hjson.
    + exists both_modes. split; [exact Hb |].
      split; [exact both_modes_has_mode | exact both_modes_accepted].
    + discriminate.
    + exists both_modes. split; [exact Hp |].
      split; [exact both_modes_has_mode | exact both_modes_accepted].
    + exists light_only. split; [exact Ha |].
      split; [exact light_only_has_mode | exact light_only_accepted].
  - exists st', evs. split; [exact Hrun |]. split; [exact Hev |].
    rewrite Hreads. exact listed_disk_paths.
Defined.

Lemma load_leaves_other_themes_witness :
  (get_theme "textual-dark"
     (@load_theme sample_env 1 "custom" (started custom_disk)).2).1
  = (get_theme "textual-dark" (started custom_disk)).1.
Proof.
  apply (@load_leaves_other_themes sample_env 0 "custom" (started custom_disk)
           running_app light_only "textual-dark" eq_refl custom_disk_reads
           light_only_has_mode light_only_accepted).
  intros mode [<-|[<-|[]]]; vm_compute; discriminate.
Defined.

Lemma absent_mode_registers_nothing_witness :
  let st' := (@load_theme sample_env 1 "custom" (started custom_disk)).2 in
  get_theme (Py.basename "custom" +:+ "_" +:+ "dark") st'
  = (Raised (KeyError (Py.basename "custom" +:+ "_" +:+ "dark")), st').
Proof.
  exact (@absent_mode_registers_nothing sample_env 0 "custom" (started custom_disk)
           running_app light_only "dark" eq_refl custom_disk_reads
           light_only_has_mode light_only_accepted
           (or_introl eq_refl) (proj1 light_only_modes) eq_refl).
Defined.

Lemma blocked_disk_facts :
  blocked_disk !! @theme_folder sample_env = Some (File broken_file) /\
  path_exists (@theme_folder sample_env / "par.json")%path blocked_disk = false.
Proof. split; vm_compute; reflexivity. Qed.

Lemma theme_folder_is_a_file_witness :
  exists msg : string,
    @ensure_default_theme sample_env (started blocked_disk)
    = (Raised (OSError msg), started blocked_disk).
Proof.
  destruct (@theme_folder_is_a_file sample_env (started blocked_disk) broken_file
              (proj1 blocked_disk_facts) (proj2 blocked_disk_facts))
    as (msg & Hens & _).
  now exists msg.
Defined.

(** *** Where the specification says more than the code does *)

(** C2, as the specification words it, fails: a definition can have a mode
    key and still not get a theme for it. Here both modes are present, the
    light one passes [name] among its attributes, the constructor refuses
    it, and the call ends in that [TypeError] with the dark theme alone
    registered. *)
Lemma rejected_mode_gets_no_theme :
  is_Some (named_light !! "dark") /\ is_Some (named_light !! "light") /\
  @read_json_file sample_env (@secure_ops sample_env) half_disk
    (@theme_file_of sample_env "half") = inr named_light /\
  (@load_theme sample_env 2 "half" (started half_disk)).1
  = Raised (TypeError "got multiple values for keyword argument 'name'") /\
  map theme_name
      (registrations (events (@load_theme sample_env 2 "half" (started half_disk)).2))
  = ["half_dark"].
Proof.
  destruct half_disk_facts as (Hr & Hd & Hl & _).
  split; [rewrite Hd; eauto |]. split; [rewrite Hl; eauto |].
  split; [exact Hr |]. split; vm_compute; reflexivity.
Qed.

(** C4, as the specification words it, fails: the guard compares the
    stripped name with the configured name as it stands. With the fallback
    configured as [x/par] and no theme file on disk, the call for [gone]
    never ends, whatever room it is given, and five levels of call have
    already asked the accessor five times. *)
Lemma nested_fallback_is_not_bounded :
  (forall fuel : nat,
      (@load_theme nested_fallback_env fuel "gone" (started empty_disk)).1 = OutOfFuel) /\
  reads (events (@load_theme nested_fallback_env 5 "gone" (started empty_disk)).2)
  = [["/"; "d"; "themes"; "gone.json"]; ["/"; "d"; "themes"; "par.json"];
     ["/"; "d"; "themes"; "par.json"]; ["/"; "d"; "themes"; "par.json"];
     ["/"; "d"; "themes"; "par.json"]].
Proof.
  split; [exact nested_fallback_keeps_recursing | vm_compute; reflexivity].
Qed.
